(** * Voice control of the sign-in / sign-up forms

    A shallow embedding of the two cooperating React hooks
    [useVoiceRecognition] and [useVoiceCommands]
    (frontend/src/hooks) and of the callbacks that [RegisterPage] and
    [LoginPage] hand to them.

    Conventions of the embedding.
    - A JavaScript string is a [string] of code units; the model covers
      the code units below 256 (Latin-1), on which [trim], [\s] and
      [toLowerCase] are defined below exactly as ECMAScript defines them.
    - React state ([useState]) and refs ([useRef]) are fields of a record
      that is threaded through the handlers.
    - Everything the hooks do to the outside (engine calls, console
      output) is appended to a log; [setTimeout] puts a timer in a queue
      and a [Tick] event fires the oldest one (all delays are equal).
    - The speech engine is a black box: whether its [start] primitive
      throws is part of the event that makes the hook call it.
    - One event is one turn of the event loop, followed by one render.
      The cleanup that stops the engine when the form unmounts is not
      modelled; no property below concerns it. *)

From Stdlib Require Import String Ascii List Bool Arith Lia DecimalString.
Import ListNotations.
Open Scope string_scope.
Set Implicit Arguments.

(** ** JavaScript string primitives *)

Module Js.

(** White space as matched by [String.prototype.trim] and by the
    regular expression class [\s], restricted to Latin-1. *)
Definition isWhiteSpace (c : ascii) : bool :=
  let n := nat_of_ascii c in
  ((9 <=? n) && (n <=? 13) || (n =? 32) || (n =? 160))%nat.

(** [toLowerCase] on one Latin-1 code unit: A-Z, and the upper-case
    letters 0xC0-0xDE except the multiplication sign 0xD7. *)
Definition lowerChar (c : ascii) : ascii :=
  let n := nat_of_ascii c in
  if ((65 <=? n) && (n <=? 90))%nat then ascii_of_nat (n + 32)
  else if ((192 <=? n) && (n <=? 222) && negb (n =? 215))%nat
       then ascii_of_nat (n + 32)
  else c.

Fixpoint toLowerCase (s : string) : string :=
  match s with
  | EmptyString => EmptyString
  | String c s' => String (lowerChar c) (toLowerCase s')
  end.

(** [s.startsWith(p)] *)
Fixpoint startsWith (s p : string) {struct p} : bool :=
  match p with
  | EmptyString => true
  | String b p' =>
      match s with
      | EmptyString => false
      | String a s' => Ascii.eqb a b && startsWith s' p'
      end
  end.

(** [s.includes(p)] *)
Fixpoint includes (s p : string) : bool :=
  startsWith s p ||
  match s with
  | EmptyString => false
  | String _ s' => includes s' p
  end.

Fixpoint drop (n : nat) (s : string) : string :=
  match n with
  | 0 => s
  | S n' => match s with
            | EmptyString => EmptyString
            | String _ s' => drop n' s'
            end
  end.

(** [s.replace(p, r)] with a string pattern: only the first
    occurrence of [p] is replaced.  (The callers pass [r = ''], so the
    [$]-patterns of a replacement string do not arise.) *)
Fixpoint replace (s p r : string) : string :=
  if startsWith s p then r ++ drop (String.length p) s
  else match s with
       | EmptyString => EmptyString
       | String c s' => String c (replace s' p r)
       end.

Fixpoint trimStart (s : string) : string :=
  match s with
  | EmptyString => EmptyString
  | String c s' => if isWhiteSpace c then trimStart s' else s
  end.

Fixpoint trimEnd (s : string) : string :=
  match s with
  | EmptyString => EmptyString
  | String c s' =>
      match trimEnd s' with
      | EmptyString => if isWhiteSpace c then EmptyString
                       else String c EmptyString
      | t => String c t
      end
  end.

(** [s.trim()] *)
Definition trim (s : string) : string := trimEnd (trimStart s).

(** [s.replace(/\s+/g, '')]: every run of white space is deleted. *)
Fixpoint stripWhiteSpace (s : string) : string :=
  match s with
  | EmptyString => EmptyString
  | String c s' =>
      if isWhiteSpace c then stripWhiteSpace s'
      else String c (stripWhiteSpace s')
  end.

(** [s.endsWith(p)]: some tail of [s] is [p]. *)
Fixpoint endsWith (s p : string) : bool :=
  String.eqb s p ||
  match s with
  | EmptyString => false
  | String _ s' => endsWith s' p
  end.

(** Truthiness of a string: non-empty. *)
Definition truthy (s : string) : bool :=
  match s with
  | EmptyString => false
  | String _ _ => true
  end.

End Js.

(** ** Shared vocabulary *)

(** The form fields a dictated value can be routed to
    ([currentFieldRef] holds one of them or [null]). *)
Inductive Field := Name | Email | Password | ConfirmPassword.

(** What the hooks do to the browser, in the order they do it. *)
Inductive LogEntry :=
| EngineStart                                  (* recognitionRef.current.start() *)
| EngineStop                                   (* recognitionRef.current.stop()  *)
| ConsoleLog (msg : string) (arg : option string)
| ConsoleError (msg : string) (arg : option string).

(** The two callbacks the hooks hand to [setTimeout]. *)
Inductive TimerAction :=
| RestartRecognition      (* useVoiceRecognition.ts, lines 48-56 *)
| AutoResetTranscript.    (* useVoiceCommands.ts, lines 26-28    *)

Record Timer := { delay : nat; action : TimerAction }.

(** Completion of a JavaScript statement: it ends normally or by a
    throw; both carry the state reached. *)
Inductive Completion (A : Type) :=
| Normal (a : A)
| Throw (a : A).

Definition try_catch {A} (body : Completion A) (handler : A -> Completion A)
  : Completion A :=
  match body with
  | Normal a => Normal a
  | Throw a => handler a
  end.

Definition completed {A} (c : Completion A) : A :=
  match c with Normal a | Throw a => a end.

(** ** State of one mounted form *)

Section Hooks.

(** [Page] is the state of the hosting page, which the callbacks of
    the configuration read and update. *)
Variable Page : Type.

Record Hook := {
  isListening : bool;                  (* useState(false) *)
  transcript : string;                 (* useState('')    *)
  recognitionRef : bool;               (* is recognitionRef.current an engine? *)
  lastTranscriptRef : string;          (* useRef('')      *)
  currentFieldRef : option Field;      (* useRef(null)    *)
  timers : list Timer;                 (* pending setTimeout callbacks, oldest first *)
  log : list LogEntry;                 (* engine calls and console output, oldest first *)
  page : Page
}.

Definition setIsListening (b : bool) (h : Hook) : Hook :=
  {| isListening := b; transcript := transcript h;
     recognitionRef := recognitionRef h;
     lastTranscriptRef := lastTranscriptRef h;
     currentFieldRef := currentFieldRef h;
     timers := timers h; log := log h; page := page h |}.

Definition setTranscript (t : string) (h : Hook) : Hook :=
  {| isListening := isListening h; transcript := t;
     recognitionRef := recognitionRef h;
     lastTranscriptRef := lastTranscriptRef h;
     currentFieldRef := currentFieldRef h;
     timers := timers h; log := log h; page := page h |}.

Definition setLastTranscriptRef (t : string) (h : Hook) : Hook :=
  {| isListening := isListening h; transcript := transcript h;
     recognitionRef := recognitionRef h;
     lastTranscriptRef := t;
     currentFieldRef := currentFieldRef h;
     timers := timers h; log := log h; page := page h |}.

Definition setCurrentFieldRef (f : option Field) (h : Hook) : Hook :=
  {| isListening := isListening h; transcript := transcript h;
     recognitionRef := recognitionRef h;
     lastTranscriptRef := lastTranscriptRef h;
     currentFieldRef := f;
     timers := timers h; log := log h; page := page h |}.

Definition setTimers (ts : list Timer) (h : Hook) : Hook :=
  {| isListening := isListening h; transcript := transcript h;
     recognitionRef := recognitionRef h;
     lastTranscriptRef := lastTranscriptRef h;
     currentFieldRef := currentFieldRef h;
     timers := ts; log := log h; page := page h |}.

Definition emit (e : LogEntry) (h : Hook) : Hook :=
  {| isListening := isListening h; transcript := transcript h;
     recognitionRef := recognitionRef h;
     lastTranscriptRef := lastTranscriptRef h;
     currentFieldRef := currentFieldRef h;
     timers := timers h; log := log h ++ [e]; page := page h |}.

(** Running a callback of the hosting page. *)
Definition call (f : Page -> Page) (h : Hook) : Hook :=
  {| isListening := isListening h; transcript := transcript h;
     recognitionRef := recognitionRef h;
     lastTranscriptRef := lastTranscriptRef h;
     currentFieldRef := currentFieldRef h;
     timers := timers h; log := log h; page := f (page h) |}.

(** [setTimeout(action, ms)] *)
Definition setTimeout (a : TimerAction) (ms : nat) (h : Hook) : Hook :=
  setTimers (timers h ++ [{| delay := ms; action := a |}]) h.

(** ** useVoiceRecognition *)

(** [useState(false)]: the value of [isListening] in the first render.
    The engine handlers are created once, by the effect that runs
    after that render (its only dependency, [isSupported], never
    changes), so the [isListening] they mention is this value. *)
Definition initialIsListening : bool := false.

(** The hook after its first render and its mount effect. *)
Definition mount (isSupported : bool) (p : Page) : Hook :=
  {| isListening := initialIsListening; transcript := "";
     recognitionRef := isSupported;
     lastTranscriptRef := "";
     currentFieldRef := None;
     timers := []; log := []; page := p |}.

(** The engine's start primitive, which may throw. *)
Definition engineStart (throws : bool) (h : Hook) : Completion Hook :=
  if throws then Throw (emit EngineStart h) else Normal (emit EngineStart h).

(** [recognition.onstart] *)
Definition onstart (h : Hook) : Hook :=
  if recognitionRef h then setIsListening true h else h.

(** [recognition.onresult], on [event.results[0]] with its first
    alternative's transcript. *)
Definition onresult (isFinal : bool) (text : string) (h : Hook) : Hook :=
  if recognitionRef h then
    if isFinal then setTranscript (Js.trim text) h else h
  else h.

(** [recognition.onerror] *)
Definition onerror (error : string) (h : Hook) : Hook :=
  if recognitionRef h then
    let h1 := emit (ConsoleError "Speech recognition error:" (Some error)) h in
    let h2 := setIsListening false h1 in
    if String.eqb error "no-speech"
    then setTimeout RestartRecognition 1000 h2
    else h2
  else h.

(** The callback that [onerror] schedules. *)
Definition restartRecognition (throws : bool) (h : Hook) : Completion Hook :=
  if recognitionRef h && negb initialIsListening then
    try_catch (engineStart throws h)
      (fun h' => Normal (emit (ConsoleLog "Could not restart recognition" None) h'))
  else Normal h.

(** [recognition.onend] *)
Definition onend (h : Hook) : Hook :=
  if recognitionRef h then setIsListening false h else h.

Definition startListening (throws : bool) (h : Hook) : Completion Hook :=
  if recognitionRef h && negb (isListening h) then
    let h1 := setTranscript "" h in
    try_catch (engineStart throws h1)
      (fun h' =>
         Normal (setIsListening false
                   (emit (ConsoleError "Failed to start recognition:" None) h')))
  else Normal h.

Definition stopListening (h : Hook) : Hook :=
  if recognitionRef h && isListening h then emit EngineStop h else h.

Definition resetTranscript (h : Hook) : Hook := setTranscript "" h.

(** ** useVoiceCommands *)

(** [VoiceCommandsConfig]: one callback per intent; the two optional
    ones may be absent. *)
Record VoiceCommandsConfig := {
  onNameCommand : option (string -> Page -> Page);
  onEmailCommand : string -> Page -> Page;
  onPasswordCommand : string -> Page -> Page;
  onConfirmPasswordCommand : option (string -> Page -> Page);
  onSignInCommand : Page -> Page;
  onSignUpCommand : Page -> Page;
  onGoToSignUpCommand : Page -> Page;
  onNextCommand : Page -> Page
}.

Variable config : VoiceCommandsConfig.

(** [if (text && callback) callback(text)] for an optional callback. *)
Definition callOptional (cb : option (string -> Page -> Page))
           (text : string) (h : Hook) : Hook :=
  match cb with
  | Some f => call (f text) h
  | None => h
  end.

(** [console.log('Processing voice command:', command)] *)
Definition announce (command : string) (h : Hook) : Hook :=
  emit (ConsoleLog "Processing voice command:" (Some command)) h.

Definition processVoiceCommand (command : string) (h0 : Hook) : Hook :=
  let h := announce command h0 in
  (* Navigation commands *)
  if Js.includes command "go to sign up" || Js.includes command "signup page"
  then call (onGoToSignUpCommand config) h
  else if Js.includes command "sign in" && negb (Js.includes command "go to")
  then call (onSignInCommand config) h
  else if Js.includes command "sign up" && negb (Js.includes command "go to")
  then call (onSignUpCommand config) h
  else if Js.includes command "next"
  then call (onNextCommand config) h
  (* Field selection commands *)
  else if Js.startsWith command "name" then
    let h1 := setCurrentFieldRef (Some Name) h in
    let nameText := Js.trim (Js.replace command "name" "") in
    if Js.truthy nameText
    then callOptional (onNameCommand config) nameText h1
    else h1
  else if Js.startsWith command "email" then
    let h1 := setCurrentFieldRef (Some Email) h in
    let emailText := Js.trim (Js.replace command "email" "") in
    if Js.truthy emailText
    then call (onEmailCommand config emailText) h1
    else h1
  else if Js.startsWith command "password" && negb (Js.includes command "confirm") then
    let h1 := setCurrentFieldRef (Some Password) h in
    let passwordText := Js.trim (Js.replace command "password" "") in
    if Js.truthy passwordText
    then call (onPasswordCommand config passwordText) h1
    else h1
  else if Js.startsWith command "confirm password" then
    let h1 := setCurrentFieldRef (Some ConfirmPassword) h in
    let passwordText := Js.trim (Js.replace command "confirm password" "") in
    if Js.truthy passwordText
    then callOptional (onConfirmPasswordCommand config) passwordText h1
    else h1
  (* Direct input for current field *)
  else
    match currentFieldRef h with
    | Some f =>
        if Js.truthy command then
          match f with
          | Name => callOptional (onNameCommand config) command h
          | Email => call (onEmailCommand config command) h
          | Password => call (onPasswordCommand config command) h
          | ConfirmPassword => callOptional (onConfirmPasswordCommand config) command h
          end
        else h
    | None => h
    end.

(** The effect of [useVoiceCommands] on [transcript], statement by
    statement: the program counter says which statement of lines
    21-29 runs next. *)
Inductive GatePc :=
| AtGuard        (* line 21: if (transcript && transcript !== lastTranscriptRef.current) *)
| AtRecord       (* line 22: lastTranscriptRef.current = transcript *)
| AtInterpret    (* line 23: processVoiceCommand(transcript.toLowerCase()) *)
| AtSchedule     (* line 26: setTimeout(() => resetTranscript(), 1000) *)
| GateDone.

(** The guard of line 21. *)
Definition admits (h : Hook) : bool :=
  Js.truthy (transcript h)
  && negb (String.eqb (transcript h) (lastTranscriptRef h)).

Definition gateStep (c : GatePc * Hook) : GatePc * Hook :=
  let (pc, h) := c in
  match pc with
  | AtGuard => if admits h then (AtRecord, h) else (GateDone, h)
  | AtRecord => (AtInterpret, setLastTranscriptRef (transcript h) h)
  | AtInterpret =>
      (AtSchedule, processVoiceCommand (Js.toLowerCase (transcript h)) h)
  | AtSchedule => (GateDone, setTimeout AutoResetTranscript 1000 h)
  | GateDone => (GateDone, h)
  end.

Fixpoint gateRun (n : nat) (c : GatePc * Hook) : GatePc * Hook :=
  match n with
  | 0 => c
  | S n' => gateRun n' (gateStep c)
  end.

(** One run of the effect, from its guard to its end. *)
Definition transcriptEffect (h : Hook) : Hook :=
  snd (gateRun 4 (AtGuard, h)).

Definition setCurrentField (f : option Field) (h : Hook) : Hook :=
  setCurrentFieldRef f h.

(** ** Events *)

(** What can happen to a mounted form: the engine fires one of its
    four events, the page calls one of the functions the hook returns,
    or the oldest pending timer fires.  Where the hook calls the
    engine's start primitive, the event says whether that call throws. *)
Inductive Event :=
| OnStart
| OnResult (isFinal : bool) (text : string)
| OnError (error : string)
| OnEnd
| StartListening (throws : bool)
| StopListening
| ResetTranscript
| SetCurrentField (f : option Field)
| Tick (throws : bool).

Definition fire (throws : bool) (a : TimerAction) (h : Hook) : Hook :=
  match a with
  | RestartRecognition => completed (restartRecognition throws h)
  | AutoResetTranscript => resetTranscript h
  end.

(** The handler that the event runs. *)
Definition handle (e : Event) (h : Hook) : Hook :=
  match e with
  | OnStart => onstart h
  | OnResult isFinal text => onresult isFinal text h
  | OnError error => onerror error h
  | OnEnd => onend h
  | StartListening throws => completed (startListening throws h)
  | StopListening => stopListening h
  | ResetTranscript => resetTranscript h
  | SetCurrentField f => setCurrentField f h
  | Tick throws =>
      match timers h with
      | [] => h
      | t :: rest => fire throws (action t) (setTimers rest h)
      end
  end.

(** One turn of the event loop: the handler runs, React renders, and
    the effect of [useVoiceCommands] runs if its dependency
    [transcript] differs from the previous render's. *)
Definition step (h : Hook) (e : Event) : Hook :=
  let h' := handle e h in
  if String.eqb (transcript h') (transcript h) then h'
  else transcriptEffect h'.

Definition run (h : Hook) (es : list Event) : Hook := fold_left step es h.

(** States reachable from a freshly mounted form. *)
Inductive reachable (isSupported : bool) (p : Page) : Hook -> Prop :=
| reachable_mount : reachable isSupported p (mount isSupported p)
| reachable_step h e :
    reachable isSupported p h -> reachable isSupported p (step h e).

(** ** The interpreter's result as a command *)

Inductive NavTarget := GoToSignUp | SignIn | SignUp | Next.

Inductive Command :=
| Navigate (target : NavTarget)
| SelectField (field : Field) (inlineValue : string)
| DirectInput (field : Field) (value : string)
| NoOp.

(** The branch of [processVoiceCommand] that a command takes, named
    as a [Command]. *)
Definition classify (currentField : option Field) (command : string) : Command :=
  if Js.includes command "go to sign up" || Js.includes command "signup page"
  then Navigate GoToSignUp
  else if Js.includes command "sign in" && negb (Js.includes command "go to")
  then Navigate SignIn
  else if Js.includes command "sign up" && negb (Js.includes command "go to")
  then Navigate SignUp
  else if Js.includes command "next"
  then Navigate Next
  else if Js.startsWith command "name"
  then SelectField Name (Js.trim (Js.replace command "name" ""))
  else if Js.startsWith command "email"
  then SelectField Email (Js.trim (Js.replace command "email" ""))
  else if Js.startsWith command "password" && negb (Js.includes command "confirm")
  then SelectField Password (Js.trim (Js.replace command "password" ""))
  else if Js.startsWith command "confirm password"
  then SelectField ConfirmPassword (Js.trim (Js.replace command "confirm password" ""))
  else match currentField with
       | Some f => if Js.truthy command then DirectInput f command else NoOp
       | None => NoOp
       end.

(** The conditions of the four navigation branches, and of the four
    field selection branches, of [processVoiceCommand]. *)
Definition matchesNavigation (command : string) : bool :=
  (Js.includes command "go to sign up" || Js.includes command "signup page")
  || (Js.includes command "sign in" && negb (Js.includes command "go to"))
  || (Js.includes command "sign up" && negb (Js.includes command "go to"))
  || Js.includes command "next".

Definition matchesFieldSelection (command : string) : bool :=
  Js.startsWith command "name"
  || Js.startsWith command "email"
  || (Js.startsWith command "password" && negb (Js.includes command "confirm"))
  || Js.startsWith command "confirm password".

(** The value callback of a field. *)
Definition valueCallback (f : Field) (value : string) (h : Hook) : Hook :=
  match f with
  | Name => callOptional (onNameCommand config) value h
  | Email => call (onEmailCommand config value) h
  | Password => call (onPasswordCommand config value) h
  | ConfirmPassword => callOptional (onConfirmPasswordCommand config) value h
  end.

Definition navCallback (t : NavTarget) : Page -> Page :=
  match t with
  | GoToSignUp => onGoToSignUpCommand config
  | SignIn => onSignInCommand config
  | SignUp => onSignUpCommand config
  | Next => onNextCommand config
  end.

(** What applying a command does: a navigation runs its callback; a
    field selection moves [currentFieldRef] and, with a non-empty
    inline value, runs the field's value callback; a direct input
    runs the value callback of the field; a no-op does nothing. *)
Definition applyCommand (c : Command) (h : Hook) : Hook :=
  match c with
  | Navigate t => call (navCallback t) h
  | SelectField f v =>
      let h1 := setCurrentFieldRef (Some f) h in
      if Js.truthy v then valueCallback f v h1 else h1
  | DirectInput f v => valueCallback f v h
  | NoOp => h
  end.

End Hooks.

(** ** The hosting pages *)

(** What a page callback does besides updating React state. *)
Inductive PageEffect :=
| HandleSubmit                 (* handleSubmit(new Event('submit')) *)
| NavigateTo (path : string)   (* navigate(path) *)
| Focus (f : Field).           (* <field>Ref.current?.focus() *)

Module RegisterPage.

Record FormData := {
  name : string;
  email : string;
  password : string;
  confirmPassword : string
}.

Record State := {
  formData : FormData;
  currentField : Field;          (* useState('name') *)
  effects : list PageEffect      (* oldest first *)
}.

Definition initial : State :=
  {| formData := {| name := ""; email := ""; password := ""; confirmPassword := "" |};
     currentField := Name;
     effects := [] |}.

Definition setFormData (f : FormData -> FormData) (s : State) : State :=
  {| formData := f (formData s); currentField := currentField s;
     effects := effects s |}.

Definition setCurrentField (f : Field) (s : State) : State :=
  {| formData := formData s; currentField := f; effects := effects s |}.

Definition effect (e : PageEffect) (s : State) : State :=
  {| formData := formData s; currentField := currentField s;
     effects := effects s ++ [e] |}.

(** The call of [handleSubmit]; what it then does (validation and the
    HTTP requests) is outside the model. *)
Definition handleSubmit (s : State) : State := effect HandleSubmit s.

Definition allFilled (d : FormData) : bool :=
  Js.truthy (name d) && Js.truthy (email d)
  && Js.truthy (password d) && Js.truthy (confirmPassword d).

Definition config : VoiceCommandsConfig State :=
  {| onNameCommand := Some (fun nameText s =>
       effect (Focus Name)
         (setCurrentField Name
            (setFormData (fun prev =>
               {| name := nameText; email := email prev;
                  password := password prev;
                  confirmPassword := confirmPassword prev |}) s)));
     onEmailCommand := fun emailText s =>
       effect (Focus Email)
         (setCurrentField Email
            (setFormData (fun prev =>
               {| name := name prev;
                  email := Js.toLowerCase (Js.stripWhiteSpace emailText);
                  password := password prev;
                  confirmPassword := confirmPassword prev |}) s));
     onPasswordCommand := fun passwordText s =>
       effect (Focus Password)
         (setCurrentField Password
            (setFormData (fun prev =>
               {| name := name prev; email := email prev;
                  password := Js.stripWhiteSpace passwordText;
                  confirmPassword := confirmPassword prev |}) s));
     onConfirmPasswordCommand := Some (fun passwordText s =>
       effect (Focus ConfirmPassword)
         (setCurrentField ConfirmPassword
            (setFormData (fun prev =>
               {| name := name prev; email := email prev;
                  password := password prev;
                  confirmPassword := Js.stripWhiteSpace passwordText |}) s)));
     onSignInCommand := fun s => effect (NavigateTo "/login") s;
     onSignUpCommand := fun s =>
       if allFilled (formData s) then handleSubmit s else s;
     onGoToSignUpCommand := fun s => s;
     onNextCommand := fun s =>
       match currentField s with
       | Name => effect (Focus Email) (setCurrentField Email s)
       | Email => effect (Focus Password) (setCurrentField Password s)
       | Password => effect (Focus ConfirmPassword) (setCurrentField ConfirmPassword s)
       | ConfirmPassword =>
           if allFilled (formData s) then handleSubmit s else s
       end |}.

End RegisterPage.

Module LoginPage.

Record State := {
  email : string;                (* useState('') *)
  password : string;             (* useState('') *)
  effects : list PageEffect      (* oldest first *)
}.

Definition initial : State :=
  {| email := ""; password := ""; effects := [] |}.

Definition setEmail (v : string) (s : State) : State :=
  {| email := v; password := password s; effects := effects s |}.

Definition setPassword (v : string) (s : State) : State :=
  {| email := email s; password := v; effects := effects s |}.

Definition effect (e : PageEffect) (s : State) : State :=
  {| email := email s; password := password s; effects := effects s ++ [e] |}.

(** The call of [handleSubmit]; the HTTP requests it makes are
    outside the model. *)
Definition handleSubmit (s : State) : State := effect HandleSubmit s.

Definition config : VoiceCommandsConfig State :=
  {| onNameCommand := Some (fun _ s => s);
     onEmailCommand := fun emailText s =>
       setEmail (Js.toLowerCase (Js.stripWhiteSpace emailText)) s;
     onPasswordCommand := fun passwordText s =>
       setPassword (Js.stripWhiteSpace passwordText) s;
     onConfirmPasswordCommand := None;
     onSignInCommand := fun s =>
       if Js.truthy (email s) && Js.truthy (password s)
       then handleSubmit s else s;
     onSignUpCommand := fun s => s;
     onGoToSignUpCommand := fun s => effect (NavigateTo "/register") s;
     onNextCommand := fun s => s |}.

End LoginPage.

(** ** A configuration that records its calls *)

(** One entry per callback invocation, with its argument. *)
Inductive Call :=
| NameCall (v : string)
| EmailCall (v : string)
| PasswordCall (v : string)
| ConfirmPasswordCall (v : string)
| SignInCall
| SignUpCall
| GoToSignUpCall
| NextCall.

Definition record (c : Call) (calls : list Call) : list Call := calls ++ [c].

(** Every callback only records that it was called; [hasName] and
    [hasConfirm] say whether the optional callbacks are supplied. *)
Definition recorder (hasName hasConfirm : bool) : VoiceCommandsConfig (list Call) :=
  {| onNameCommand :=
       if hasName then Some (fun v => record (NameCall v)) else None;
     onEmailCommand := fun v => record (EmailCall v);
     onPasswordCommand := fun v => record (PasswordCall v);
     onConfirmPasswordCommand :=
       if hasConfirm then Some (fun v => record (ConfirmPasswordCall v)) else None;
     onSignInCommand := record SignInCall;
     onSignUpCommand := record SignUpCall;
     onGoToSignUpCommand := record GoToSignUpCall;
     onNextCommand := record NextCall |}.

(** ** Counting in the log *)

Definition isEngineStart (e : LogEntry) : bool :=
  match e with EngineStart => true | _ => false end.

(** How often the engine's start primitive was invoked. *)
Definition engineStarts (l : list LogEntry) : nat :=
  List.length (filter isEngineStart l).

Definition isInterpretation (e : LogEntry) : bool :=
  match e with
  | ConsoleLog msg (Some _) => String.eqb msg "Processing voice command:"
  | _ => false
  end.

(** How often [processVoiceCommand] was entered: it announces itself on
    the console in its first line. *)
Definition interpretations (l : list LogEntry) : nat :=
  List.length (filter isInterpretation l).

(** ** Event sequences *)

(** One automatic retry as the engine sees it: the session ends in a
    no-speech error, the retry timer fires and its start call succeeds,
    and the engine opens the new session. *)
Definition noSpeechRound : list Event :=
  [OnError "no-speech"; Tick false; OnStart].

Fixpoint noSpeechRounds (n : nat) : list Event :=
  match n with
  | 0 => []
  | S n' => noSpeechRound ++ noSpeechRounds n'
  end.

(** An event that can publish no transcript other than [t]: every
    final result it carries trims to [t] or to the empty string. *)
Definition publishesOnly (t : string) (e : Event) : bool :=
  match e with
  | OnResult true text =>
      String.eqb (Js.trim text) t || String.eqb (Js.trim text) ""
  | _ => true
  end.

(** ** The HTTP client (services/api.ts) *)

(** What the asynchronous handlers of the pages do, in order.  Of a
    request's headers only [Authorization] is tracked. *)
Inductive JsonValue :=
| JString (s : string)
| JBool (b : bool)
| JFile (fileName : string).

Inductive Method := GET | POST.

Record Request := {
  method : Method;
  url : string;
  body : list (string * JsonValue);
  authorization : option string
}.

Inductive Act :=
| PreventDefault                    (* e.preventDefault() *)
| Print (msg : string)              (* console.log(msg, ...) *)
| PrintError (msg : string)         (* console.error(msg, ...) *)
| Sent (r : Request)                (* the request leaves the browser *)
| RemoveItem (key : string)         (* localStorage.removeItem(key) *)
| SetLocation (href : string)       (* window.location.href = href *)
| StoreLogin (token : string)       (* login(profile, token) of the auth store *)
| GoTo (path : string)              (* navigate(path) *)
| Alert (msg : string).             (* alert(msg) *)

Module Api.

(** What [JSON.parse(authData)] followed by [state?.token] yields:
    the parse or the destructuring throws, there is no token, or there
    is the token [t]. *)
Inductive Parsed :=
| Unparsable
| NoToken
| Token (t : string).

(** [localStorage], as far as the client reads it: the item
    'auth-storage' and what parsing it yields. *)
Record Storage := {
  authData : option string;
  parsed : Parsed
}.

(** A rejected request, as the handlers read it. *)
Record Error := {
  status : option nat;        (* error.response?.status *)
  detail : option string;     (* error.response?.data?.detail, when a string *)
  message : string            (* error.message *)
}.

Inductive Result (A : Type) :=
| Ok (data : A)
| Rejected (e : Error).

Arguments Rejected {A} e.

(** The request interceptor: the stored token, when there is one,
    becomes the [Authorization] header, over whatever the caller set. *)
Definition requestInterceptor (st : Storage) (r : Request) : list Act * Request :=
  match authData st with
  | Some d =>
      if Js.truthy d then
        match parsed st with
        | Unparsable => ([PrintError "Error parsing auth data:"], r)
        | NoToken => ([], r)
        | Token t =>
            if Js.truthy t
            then ([], {| method := method r; url := url r; body := body r;
                         authorization := Some ("Bearer " ++ t) |})
            else ([], r)
        end
      else ([], r)
  | None => ([], r)
  end.

(** The response interceptor: a response passes; an error is printed,
    a 401 also forgets the stored session and leaves for the login
    page, and the error is rejected on to the caller. *)
Definition responseInterceptor {A} (resp : Result A) : list Act :=
  match resp with
  | Ok _ => []
  | Rejected e =>
      PrintError "API Error:" ::
      match status e with
      | Some code =>
          if Nat.eqb code 401
          then [RemoveItem "auth-storage"; SetLocation "/login"]
          else []
      | None => []
      end
  end.

(** One request through both interceptors, given what the server
    answers. *)
Definition request {A} (st : Storage) (r : Request) (resp : Result A) : list Act :=
  let (acts, r') := requestInterceptor st r in
  (acts ++ [Sent r'] ++ responseInterceptor resp)%list.

Definition post (path : string) (data : list (string * JsonValue)) : Request :=
  {| method := POST; url := path; body := data; authorization := None |}.

Definition get (path : string) (auth : option string) : Request :=
  {| method := GET; url := path; body := []; authorization := auth |}.

(** [error.response?.data?.detail || error.message || fallback] *)
Definition errorMessage (e : Error) (fallback : string) : string :=
  match detail e with
  | Some d => if Js.truthy d then d
              else if Js.truthy (message e) then message e else fallback
  | None => if Js.truthy (message e) then message e else fallback
  end.

End Api.

Definition isSent (a : Act) : bool :=
  match a with Sent _ => true | _ => false end.

(** The requests among some acts, in order. *)
Fixpoint sentRequests (acts : list Act) : list Request :=
  match acts with
  | [] => []
  | Sent r :: rest => r :: sentRequests rest
  | _ :: rest => sentRequests rest
  end.

(** What a submission leaves behind: the two React states it sets and
    what it did. *)
Record Submission := {
  loading : bool;
  error : string;
  acts : list Act
}.

(** ** handleSubmit of the registration page *)

Module RegisterSubmit.

(** What the server answers to the three requests, should they be
    made: the registration, the login (its [access_token]) and the
    profile. *)
Record Responses := {
  registerResponse : Api.Result unit;
  loginResponse : Api.Result string;
  profileResponse : Api.Result unit
}.

(** The catch and finally blocks. *)
Definition failed (done : list Act) (e : Api.Error) : Submission :=
  {| loading := false;
     error := Api.errorMessage e "Registration failed. Please try again.";
     acts := (done ++ [PrintError "Registration error:"])%list |}.

Definition handleSubmit (st : Api.Storage) (d : RegisterPage.FormData)
           (server : Responses) : Submission :=
  let a0 := [PreventDefault] in
  if negb (String.eqb (RegisterPage.password d) (RegisterPage.confirmPassword d))
  then {| loading := false; error := "Passwords do not match"; acts := a0 |}
  else
    let a1 :=
      (a0 ++ [Print "Attempting registration for:"]
          ++ Api.request st
               (Api.post "/auth/register"
                  [("name", JString (RegisterPage.name d));
                   ("email", JString (RegisterPage.email d));
                   ("password", JString (RegisterPage.password d))])
               (registerResponse server))%list in
    match registerResponse server with
    | Api.Rejected e => failed a1 e
    | Api.Ok _ =>
        let a2 :=
          (a1 ++ [Print "Registration response:"]
              ++ Api.request st
                   (Api.post "/auth/login"
                      [("email", JString (RegisterPage.email d));
                       ("password", JString (RegisterPage.password d))])
                   (loginResponse server))%list in
        match loginResponse server with
        | Api.Rejected e => failed a2 e
        | Api.Ok access_token =>
            let a3 :=
              (a2 ++ [Print "Auto-login response:"]
                  ++ Api.request st
                       (Api.get "/auth/me" (Some ("Bearer " ++ access_token)%string))
                       (profileResponse server))%list in
            match profileResponse server with
            | Api.Rejected e => failed a3 e
            | Api.Ok _ =>
                {| loading := false; error := "";
                   acts := (a3 ++ [Print "Profile response:";
                                   StoreLogin access_token;
                                   GoTo "/dashboard"])%list |}
            end
        end
    end.

End RegisterSubmit.

(** ** handleSubmit of the login page *)

Module LoginSubmit.

Record Responses := {
  loginResponse : Api.Result string;
  profileResponse : Api.Result unit
}.

Definition failed (done : list Act) (e : Api.Error) : Submission :=
  {| loading := false;
     error := Api.errorMessage e "Login failed. Please try again.";
     acts := (done ++ [PrintError "Login error:"])%list |}.

Definition handleSubmit (st : Api.Storage) (email password : string)
           (server : Responses) : Submission :=
  let a1 :=
    ([PreventDefault; Print "Attempting login for:"]
       ++ Api.request st
            (Api.post "/auth/login"
               [("email", JString email); ("password", JString password)])
            (loginResponse server))%list in
  match loginResponse server with
  | Api.Rejected e => failed a1 e
  | Api.Ok access_token =>
      let a2 :=
        (a1 ++ [Print "Login response:"]
            ++ Api.request st
                 (Api.get "/auth/me" (Some ("Bearer " ++ access_token)%string))
                 (profileResponse server))%list in
      match profileResponse server with
      | Api.Rejected e => failed a2 e
      | Api.Ok _ =>
          {| loading := false; error := "";
             acts := (a2 ++ [Print "Profile response:";
                             StoreLogin access_token;
                             GoTo "/dashboard"])%list |}
      end
  end.

End LoginSubmit.

(** ** The chat page (pages/ChatbotPage.tsx) *)

Module ChatbotPage.

Inductive Sender := User | Bot.

(** A message of the conversation.  Its [timestamp] is left out: it is
    only displayed.  The [id] is the clock reading whose decimal
    notation the page uses as key. *)
Record Message := {
  id : nat;
  type : Sender;
  content : option string;
  preview : option string;
  attachments : option string;       (* files *)
  sessionId : option string
}.

(** [response.data] of the three chat endpoints; the preview and the
    file list are passed on unread. *)
Record Data := {
  success : bool;
  session_id : option string;
  message : option string;
  response : option string;
  dataPreview : option string;
  dataFiles : option string
}.

Record State := {
  messages : list Message;
  inputMessage : string;
  files : list string;               (* the names of the chosen files *)
  loading : bool;
  currentSessionId : option string
}.

(** [a || b] on values that are a string or undefined. *)
Definition orElse (a b : option string) : option string :=
  match a with
  | Some x => if Js.truthy x then a else b
  | None => b
  end.

Definition truthyOpt (a : option string) : bool :=
  match a with
  | Some x => Js.truthy x
  | None => false
  end.

Definition setFiles (fs : list string) (s : State) : State :=
  {| messages := messages s; inputMessage := inputMessage s; files := fs;
     loading := loading s; currentSessionId := currentSessionId s |}.

Definition setInputMessage (v : string) (s : State) : State :=
  {| messages := messages s; inputMessage := v; files := files s;
     loading := loading s; currentSessionId := currentSessionId s |}.

(** The effect on [transcript]: a heard utterance becomes the input. *)
Definition transcriptEffect (h : Hook State) : Hook State :=
  if Js.truthy (transcript h)
  then call (setInputMessage (transcript h)) h
  else h.

(** [handleFileUpload], on [e.target.files]. *)
Definition handleFileUpload (selected : option (list string)) (s : State)
  : State * list Act :=
  match selected with
  | Some chosen =>
      match chosen with
      | file :: _ =>
          if Js.endsWith file ".csv"
          then (setFiles [file] s, [])
          else (s, [Alert "Please select a CSV file"])
      | [] => (s, [Alert "Please select a CSV file"])
      end
  | None => (s, [])
  end.

(** [prev.filter((_, i) => i !== index)] *)
Fixpoint removeAt (index : nat) (fs : list string) {struct fs} : list string :=
  match fs with
  | [] => []
  | f :: rest =>
      match index with
      | 0 => rest
      | S i => f :: removeAt i rest
      end
  end.

(** The request that [handleSendMessage] makes. *)
Definition chooseRequest (useVoice : bool) (s : State) : Request :=
  match files s with
  | file :: _ =>
      Api.post "/chatbot/upload-csv" [("file", JFile file)]
  | [] =>
      match currentSessionId s with
      | Some session =>
          if Js.truthy session && Js.truthy (inputMessage s)
          then Api.post "/chatbot/process-command"
                 [("session_id", JString session);
                  ("command", JString (inputMessage s))]
          else Api.post "/chatbot/csv-chat"
                 [("message", JString (inputMessage s)); ("voice", JBool useVoice)]
      | None =>
          Api.post "/chatbot/csv-chat"
            [("message", JString (inputMessage s)); ("voice", JBool useVoice)]
      end
  end.

Definition userMessage (now : nat) (s : State) : Message :=
  {| id := now; type := User;
     content :=
       Some (if Js.truthy (inputMessage s) then inputMessage s
             else "Uploaded "
                    ++ NilZero.string_of_uint (Nat.to_uint (List.length (files s)))
                    ++ " file(s)");
     preview := None; attachments := None; sessionId := None |}.

Definition botMessage (now : nat) (s : State) (resp : Api.Result Data) : Message :=
  match resp with
  | Api.Ok data =>
      {| id := now + 1; type := Bot;
         content := orElse (message data) (response data);
         preview := dataPreview data;
         attachments := dataFiles data;
         sessionId := orElse (session_id data) (currentSessionId s) |}
  | Api.Rejected _ =>
      {| id := now + 1; type := Bot;
         content := Some "Sorry, I encountered an error processing your request. Please try again.";
         preview := None; attachments := None; sessionId := None |}
  end.

(** [handleSendMessage] up to its [await]: the user's message is
    appended, the input and the transcript are cleared, the loading
    flag is set and the request leaves through the request
    interceptor. *)
Definition beforeAwait (useVoice : bool) (before : nat) (st : Api.Storage)
           (h : Hook State) : Hook State * list Act :=
  let s := page h in
  (call (fun now =>
           {| messages := (messages now ++ [userMessage before s])%list;
              inputMessage := "";
              files := files now;
              loading := true;
              currentSessionId := currentSessionId now |})
        (resetTranscript h),
   let (pre, r) := Api.requestInterceptor st (chooseRequest useVoice s) in
   (pre ++ [Sent r])%list).

(** [handleSendMessage] from its [await] on, when the server has
    answered: [called] is the page state that the call saw (its
    closure), [h] the form as it is by then.  The answer is appended to
    the conversation as it is now; an accepted upload sets the session;
    the finally block clears the files and the loading flag. *)
Definition afterAwait (called : State) (after : nat) (resp : Api.Result Data)
           (h : Hook State) : Hook State * list Act :=
  (call (fun now =>
           {| messages := (messages now ++ [botMessage after called resp])%list;
              inputMessage := inputMessage now;
              files := [];
              loading := false;
              currentSessionId :=
                match files called, resp with
                | _ :: _, Api.Ok data =>
                    if success data then session_id data
                    else currentSessionId now
                | _, _ => currentSessionId now
                end |})
        h,
   Api.responseInterceptor resp).

(** [handleSendMessage(useVoice)] when nothing else runs during its
    [await], with the clock readings before and after the request and
    the server's answer. *)
Definition handleSendMessage (useVoice : bool) (before after : nat)
           (st : Api.Storage) (resp : Api.Result Data) (h : Hook State)
  : Hook State * list Act :=
  let s := page h in
  if negb (Js.truthy (Js.trim (inputMessage s)))
     && Nat.eqb (List.length (files s)) 0
  then (h, [])
  else
    (fst (afterAwait s after resp (fst (beforeAwait useVoice before st h))),
     Api.request st (chooseRequest useVoice s) resp).

(** [handleVoiceMessage]: the microphone button. *)
Definition handleVoiceMessage (throws : bool) (before after : nat)
           (st : Api.Storage) (resp : Api.Result Data) (h : Hook State)
  : Hook State * list Act :=
  if isListening h then
    let h1 := stopListening h in
    if Js.truthy (transcript h)
    then handleSendMessage true before after st resp h1
    else (h1, [])
  else (completed (startListening throws h), []).

(** [handleKeyPress] *)
Definition handleKeyPress (key : string) (shiftKey : bool) (before after : nat)
           (st : Api.Storage) (resp : Api.Result Data) (h : Hook State)
  : Hook State * list Act :=
  if String.eqb key "Enter" && negb shiftKey then
    let (h', acts) := handleSendMessage false before after st resp h in
    (h', PreventDefault :: acts)
  else (h, []).

(** What the user and the engine can do on the page. *)
Inductive Op :=
| Engine (e : Event)                          (* an engine event, or a timer *)
| Type_ (value : string)                      (* typing, or a suggestion *)
| ChooseFiles (selected : option (list string))
| RemoveFile (index : nat)
| Send (before after : nat) (st : Api.Storage) (resp : Api.Result Data)
| Microphone (throws : bool) (before after : nat) (st : Api.Storage)
             (resp : Api.Result Data)
| KeyPress (key : string) (shiftKey : bool) (before after : nat)
           (st : Api.Storage) (resp : Api.Result Data).

Definition perform (op : Op) (h : Hook State) : Hook State * list Act :=
  match op with
  | Engine e =>
      let h' := handle e h in
      (if String.eqb (transcript h') (transcript h) then h'
       else transcriptEffect h', [])
  | Type_ value => (call (setInputMessage value) h, [])
  | ChooseFiles selected =>
      let (s', acts) := handleFileUpload selected (page h) in
      (call (fun _ => s') h, acts)
  | RemoveFile index =>
      (call (fun s => setFiles (removeAt index (files s)) s) h, [])
  | Send before after st resp => handleSendMessage false before after st resp h
  | Microphone throws before after st resp =>
      handleVoiceMessage throws before after st resp h
  | KeyPress key shiftKey before after st resp =>
      handleKeyPress key shiftKey before after st resp h
  end.

(** The page after a sequence of operations, with everything done. *)
Fixpoint performAll (ops : list Op) (h : Hook State) : Hook State * list Act :=
  match ops with
  | [] => (h, [])
  | op :: rest =>
      let (h1, a1) := perform op h in
      let (h2, a2) := performAll rest h1 in
      (h2, (a1 ++ a2)%list)
  end.

(** The page when it mounts, with its greeting. *)
Definition initial (greeting : Message) : State :=
  {| messages := [greeting]; inputMessage := ""; files := [];
     loading := false; currentSessionId := None |}.

End ChatbotPage.

(** ** The routes (App.tsx) *)

Module App.

(** The route that the router matched. *)
Inductive Route :=
| Root | Login | Register | Dashboard | Documents | Tax | Chatbot | CatchAll.

Inductive Screen :=
| LoginScreen
| RegisterScreen
| DashboardScreen                  (* DashboardPage on its own *)
| LayoutWith (index : Screen)      (* Layout with the index route in it *)
| DocumentsScreen
| TaxScreen
| ChatbotScreen.

Inductive Element :=
| Render (s : Screen)
| Redirect (to : string).          (* <Navigate to=... /> *)

(** The element of each route. *)
Definition element (isAuthenticated : bool) (r : Route) : Element :=
  match r with
  | Root => if isAuthenticated then Redirect "/dashboard" else Redirect "/login"
  | Login => if isAuthenticated then Redirect "/dashboard" else Render LoginScreen
  | Register => if isAuthenticated then Redirect "/dashboard" else Render RegisterScreen
  | Dashboard =>
      if isAuthenticated then Render (LayoutWith DashboardScreen)
      else Render DashboardScreen
  | Documents =>
      if isAuthenticated then Render (LayoutWith DocumentsScreen)
      else Redirect "/login"
  | Tax =>
      if isAuthenticated then Render (LayoutWith TaxScreen) else Redirect "/login"
  | Chatbot =>
      if isAuthenticated then Render (LayoutWith ChatbotScreen)
      else Redirect "/login"
  | CatchAll =>
      Redirect (if isAuthenticated then "/dashboard" else "/login")
  end.

(** The route of a path among the paths the application redirects
    to. *)
Definition routeOf (path : string) : Route :=
  if String.eqb path "/" then Root
  else if String.eqb path "/login" then Login
  else if String.eqb path "/register" then Register
  else if String.eqb path "/dashboard" then Dashboard
  else if String.eqb path "/documents" then Documents
  else if String.eqb path "/tax" then Tax
  else if String.eqb path "/chatbot" then Chatbot
  else CatchAll.

(** Following redirects, for at most [fuel] of them. *)
Fixpoint show (fuel : nat) (isAuthenticated : bool) (r : Route) : option Screen :=
  match element isAuthenticated r with
  | Render s => Some s
  | Redirect to =>
      match fuel with
      | 0 => None
      | S fuel' => show fuel' isAuthenticated (routeOf to)
      end
  end.

End App.

(** ** Sample values *)

Module Sample.

(** No session is stored. *)
Definition emptyStorage : Api.Storage :=
  {| Api.authData := None; Api.parsed := Api.NoToken |}.

(** A session with the token "old" is stored. *)
Definition staleStorage : Api.Storage :=
  {| Api.authData := Some "{...}"; Api.parsed := Api.Token "old" |}.

Definition unauthorized : Api.Error :=
  {| Api.status := Some 401;
     Api.detail := Some "Incorrect email or password";
     Api.message := "Request failed with status code 401" |}.

Definition form (pw confirm : string) : RegisterPage.FormData :=
  {| RegisterPage.name := "jane"; RegisterPage.email := "jane@example.com";
     RegisterPage.password := pw; RegisterPage.confirmPassword := confirm |}.

Definition registerAccepts : RegisterSubmit.Responses :=
  {| RegisterSubmit.registerResponse := Api.Ok tt;
     RegisterSubmit.loginResponse := Api.Ok "fresh";
     RegisterSubmit.profileResponse := Api.Ok tt |}.

Definition loginAccepts : LoginSubmit.Responses :=
  {| LoginSubmit.loginResponse := Api.Ok "fresh";
     LoginSubmit.profileResponse := Api.Ok tt |}.

Definition loginRefuses : LoginSubmit.Responses :=
  {| LoginSubmit.loginResponse := Api.Rejected unauthorized;
     LoginSubmit.profileResponse := Api.Ok tt |}.

Definition greeting : ChatbotPage.Message :=
  {| ChatbotPage.id := 1; ChatbotPage.type := ChatbotPage.Bot;
     ChatbotPage.content := Some "Hello!";
     ChatbotPage.preview := None; ChatbotPage.attachments := None;
     ChatbotPage.sessionId := None |}.

Definition answer : Api.Result ChatbotPage.Data :=
  Api.Ok {| ChatbotPage.success := true;
            ChatbotPage.session_id := Some "s1";
            ChatbotPage.message := Some "3 rows";
            ChatbotPage.response := None;
            ChatbotPage.dataPreview := None;
            ChatbotPage.dataFiles := None |}.

(** The chat page with a running session and a typed command. *)
Definition chatting : Hook ChatbotPage.State :=
  mount true
    {| ChatbotPage.messages := [greeting];
       ChatbotPage.inputMessage := "Show only credit transactions";
       ChatbotPage.files := [];
       ChatbotPage.loading := false;
       ChatbotPage.currentSessionId := Some "s1" |}.

End Sample.

(** ** Kinds of events and of calls *)

(** A final recognition result: the only event that can publish a
    non-empty transcript. *)
Definition isFinalResult (e : Event) : bool :=
  match e with
  | OnResult true _ => true
  | _ => false
  end.

(** [setCurrentField(null)] *)
Definition clearsCurrentField (e : Event) : bool :=
  match e with
  | SetCurrentField None => true
  | _ => false
  end.

(** The argument of a recorded call, for the four value callbacks. *)
Definition callValue (c : Call) : option string :=
  match c with
  | NameCall v | EmailCall v | PasswordCall v | ConfirmPasswordCall v => Some v
  | _ => None
  end.

(** * Properties *)

(** ** Strings *)

Lemma startsWith_app_l (p q s : string) :
  Js.startsWith s (p ++ q) = true -> Js.startsWith s p = true.
Proof.
  revert s; induction p as [|c p IH]; intros s H; [reflexivity|].
  destruct s as [|a s]; simpl in *; [discriminate|].
  apply andb_true_iff in H as [Hc Hs].
  rewrite Hc; simpl; auto.
Qed.

Lemma includes_app_l (p q s : string) :
  Js.includes s (p ++ q) = true -> Js.includes s p = true.
Proof.
  induction s as [|a s IH]; intros H.
  - unfold Js.includes in *. rewrite orb_false_r in *.
    now apply startsWith_app_l with q.
  - change (Js.startsWith (String a s) (p ++ q) || Js.includes s (p ++ q) = true) in H.
    change (Js.startsWith (String a s) p || Js.includes s p = true).
    apply orb_true_iff in H as [H|H]; apply orb_true_iff.
    + left. now apply startsWith_app_l with q.
    + right. auto.
Qed.

Lemma truthy_true (s : string) : Js.truthy s = true <-> s <> "".
Proof. destruct s; simpl; split; congruence. Qed.

Lemma truthy_false (s : string) : Js.truthy s = false <-> s = "".
Proof. destruct s; simpl; split; congruence. Qed.

Example js_trim_ex : Js.trim "  john  doe " = "john  doe".
Proof. reflexivity. Qed.

Example js_replace_ex : Js.replace "my email email" "email" "" = "my  email".
Proof. reflexivity. Qed.

Example js_lower_ex : Js.toLowerCase "Confirm PASSWORD 9Z" = "confirm password 9z".
Proof. reflexivity. Qed.

Example js_includes_ex :
  Js.includes "please sign in" "sign in" = true /\
  Js.includes "signing" "sign in" = false.
Proof. split; reflexivity. Qed.

(** ** The interpreter *)

Section Interpreter.

Variable Page : Type.
Variable config : VoiceCommandsConfig Page.

(** [processVoiceCommand] announces the command on the console and
    then does what the command of its branch says. *)
Lemma processVoiceCommand_classify (command : string) (h : Hook Page) :
  processVoiceCommand config command h =
  applyCommand config (classify (currentFieldRef h) command) (announce command h).
Proof.
  unfold processVoiceCommand, classify.
  repeat match goal with
         | |- context [if ?b then _ else _] =>
             lazymatch b with
             | Js.truthy _ => fail
             | _ => destruct b eqn:?
             end
         end; simpl; try reflexivity.
  - destruct (currentFieldRef h) as [f|]; simpl; [|reflexivity].
    destruct (Js.truthy command); [destruct f|]; reflexivity.
Qed.

Lemma matchesNavigation_false (command : string) :
  matchesNavigation command = false ->
  Js.includes command "go to sign up" || Js.includes command "signup page" = false
  /\ Js.includes command "sign in" && negb (Js.includes command "go to") = false
  /\ Js.includes command "sign up" && negb (Js.includes command "go to") = false
  /\ Js.includes command "next" = false.
Proof.
  unfold matchesNavigation. intros H.
  apply orb_false_iff in H as [H H4].
  apply orb_false_iff in H as [H H3].
  apply orb_false_iff in H as [H1 H2].
  auto.
Qed.

Lemma matchesFieldSelection_false (command : string) :
  matchesFieldSelection command = false ->
  Js.startsWith command "name" = false
  /\ Js.startsWith command "email" = false
  /\ Js.startsWith command "password" && negb (Js.includes command "confirm") = false
  /\ Js.startsWith command "confirm password" = false.
Proof.
  unfold matchesFieldSelection. intros H.
  apply orb_false_iff in H as [H H4].
  apply orb_false_iff in H as [H H3].
  apply orb_false_iff in H as [H1 H2].
  auto.
Qed.

Lemma includes_confirm (command : string) :
  Js.includes command "confirm password" = true ->
  Js.includes command "confirm" = true.
Proof. apply (includes_app_l "confirm" " password"). Qed.

(** The password branch sets the field to [Password] only for a
    command without "confirm". *)
Lemma classify_password_inv (cur : option Field) (command v : string) :
  classify cur command = SelectField Password v ->
  Js.includes command "confirm" = false.
Proof.
  unfold classify.
  repeat match goal with
         | |- context [if ?b then _ else _] =>
             lazymatch b with
             | Js.truthy _ => fail
             | _ => destruct b eqn:?
             end
         end; try discriminate.
  - intros _.
    match goal with
    | H : _ && negb _ = true |- _ => apply andb_true_iff in H as [_ H]
    end.
    now apply negb_true_iff.
  - destruct cur; [destruct (Js.truthy command)|]; discriminate.
Qed.

(** C2, as amended: a command that starts with "confirm password" and
    matches no navigation pattern is classified, whatever the current
    field, as SelectField(ConfirmPassword, v) with v the trimmed
    remainder after that prefix; it moves currentFieldRef to
    ConfirmPassword and, when v is non-empty, runs the confirm-password
    callback (if one is configured) on v.  And no command that contains
    "confirm password" anywhere is ever classified as
    SelectField(Password, ...). *)
Theorem C2_confirm_password_prefix (cur : option Field) (X : string) (h : Hook Page) :
  matchesNavigation ("confirm password" ++ X) = false ->
  let v := Js.trim X in
  let h' := processVoiceCommand config ("confirm password" ++ X) h in
  classify cur ("confirm password" ++ X) = SelectField ConfirmPassword v
  /\ currentFieldRef h' = Some ConfirmPassword
  /\ page h' =
     (if Js.truthy v
      then match onConfirmPasswordCommand config with
           | Some f => f v (page h)
           | None => page h
           end
      else page h)
  /\ (forall (command : string) (c : option Field) (w : string),
        Js.includes command "confirm password" = true ->
        classify c command <> SelectField Password w).
Proof.
  intros Hnav v h'.
  assert (Hc : forall c, classify c ("confirm password" ++ X)
                         = SelectField ConfirmPassword v).
  { intros c. unfold classify.
    apply matchesNavigation_false in Hnav as (H1 & H2 & H3 & H4).
    rewrite H1, H2, H3, H4. reflexivity. }
  split; [apply Hc|].
  subst h'. rewrite processVoiceCommand_classify, Hc.
  unfold applyCommand, valueCallback, callOptional.
  repeat split.
  - destruct (Js.truthy v); [destruct (onConfirmPasswordCommand config)|];
      reflexivity.
  - destruct (Js.truthy v); [destruct (onConfirmPasswordCommand config)|];
      reflexivity.
  - intros command c w Hin Hcl.
    apply classify_password_inv in Hcl.
    apply includes_confirm in Hin. congruence.
Qed.

(** C7: a non-empty command that matches no navigation and no field
    selection pattern is a direct input for the current field, which
    runs exactly that field's value callback on the whole command and
    leaves currentFieldRef alone; without a current field it is a
    no-op: nothing but the console announcement happens. *)
Theorem C7_fallback (command : string) (h : Hook Page) :
  command <> "" ->
  matchesNavigation command = false ->
  matchesFieldSelection command = false ->
  let h' := processVoiceCommand config command h in
  match currentFieldRef h with
  | Some f =>
      classify (Some f) command = DirectInput f command
      /\ h' = valueCallback config f command (announce command h)
      /\ currentFieldRef h' = Some f
      /\ page h' =
         match f with
         | Name => match onNameCommand config with
                   | Some cb => cb command (page h)
                   | None => page h
                   end
         | Email => onEmailCommand config command (page h)
         | Password => onPasswordCommand config command (page h)
         | ConfirmPassword => match onConfirmPasswordCommand config with
                              | Some cb => cb command (page h)
                              | None => page h
                              end
         end
  | None =>
      classify None command = NoOp
      /\ h' = announce command h
      /\ currentFieldRef h' = None
      /\ page h' = page h
  end.
Proof.
  intros Hne Hnav Hsel h'.
  apply truthy_true in Hne.
  apply matchesNavigation_false in Hnav as (N1 & N2 & N3 & N4).
  apply matchesFieldSelection_false in Hsel as (F1 & F2 & F3 & F4).
  assert (Hc : forall c, classify c command =
                         match c with
                         | Some f => DirectInput f command
                         | None => NoOp
                         end).
  { intros c. unfold classify.
    rewrite N1, N2, N3, N4, F1, F2, F3, F4, Hne. reflexivity. }
  subst h'. rewrite processVoiceCommand_classify, Hc.
  destruct (currentFieldRef h) as [f|] eqn:Hcur.
  - rewrite (Hc (Some f)). simpl.
    repeat split.
    + destruct f; simpl; unfold callOptional;
        try destruct (onNameCommand config);
        try destruct (onConfirmPasswordCommand config); simpl; assumption.
    + destruct f; simpl; unfold callOptional;
        try destruct (onNameCommand config);
        try destruct (onConfirmPasswordCommand config); reflexivity.
  - rewrite (Hc None). simpl. auto.
Qed.

(** *** What the interpreter leaves alone *)

Lemma applyCommand_frame (c : Command) (h : Hook Page) :
  let h' := applyCommand config c h in
  isListening h' = isListening h /\ transcript h' = transcript h
  /\ recognitionRef h' = recognitionRef h
  /\ lastTranscriptRef h' = lastTranscriptRef h
  /\ timers h' = timers h /\ log h' = log h.
Proof.
  destruct c as [t|f v|f v|]; simpl.
  - auto 10.
  - destruct (Js.truthy v); [|simpl; auto 10].
    destruct f; simpl; unfold callOptional;
      try destruct (onNameCommand config);
      try destruct (onConfirmPasswordCommand config); simpl; auto 10.
  - destruct f; simpl; unfold callOptional;
      try destruct (onNameCommand config);
      try destruct (onConfirmPasswordCommand config); simpl; auto 10.
  - auto 10.
Qed.

Lemma processVoiceCommand_frame (command : string) (h : Hook Page) :
  let h' := processVoiceCommand config command h in
  isListening h' = isListening h /\ transcript h' = transcript h
  /\ recognitionRef h' = recognitionRef h
  /\ lastTranscriptRef h' = lastTranscriptRef h
  /\ timers h' = timers h
  /\ log h' = (log h ++ [ConsoleLog "Processing voice command:" (Some command)])%list.
Proof.
  simpl. rewrite processVoiceCommand_classify.
  destruct (applyCommand_frame (classify (currentFieldRef h) command)
              (announce command h)) as (A & B & C & D & E & F).
  simpl in *. rewrite A, B, C, D, E, F. auto 10.
Qed.

(** *** The transcript effect *)

Lemma transcriptEffect_eq (h : Hook Page) :
  transcriptEffect config h =
  if admits h
  then setTimeout AutoResetTranscript 1000
         (processVoiceCommand config (Js.toLowerCase (transcript h))
            (setLastTranscriptRef (transcript h) h))
  else h.
Proof.
  unfold transcriptEffect. simpl.
  destruct (admits h); reflexivity.
Qed.

End Interpreter.

(** ** The transcript gate *)

Lemma interpretations_app (l1 l2 : list LogEntry) :
  interpretations (l1 ++ l2) = interpretations l1 + interpretations l2.
Proof. unfold interpretations. now rewrite filter_app, length_app. Qed.

Lemma engineStarts_app (l1 l2 : list LogEntry) :
  engineStarts (l1 ++ l2) = engineStarts l1 + engineStarts l2.
Proof. unfold engineStarts. now rewrite filter_app, length_app. Qed.

Section Gate.

Variable Page : Type.
Variable config : VoiceCommandsConfig Page.

Lemma admits_false_same (h : Hook Page) :
  transcript h = lastTranscriptRef h -> admits h = false.
Proof.
  intros E. unfold admits. rewrite E, String.eqb_refl.
  apply andb_false_r.
Qed.

Lemma admits_false_empty (h : Hook Page) :
  transcript h = "" -> admits h = false.
Proof. intros E. unfold admits. now rewrite E. Qed.

(** What one admitted run of the effect changes. *)
Lemma transcriptEffect_admitted (h : Hook Page) :
  admits h = true ->
  let h' := transcriptEffect config h in
  lastTranscriptRef h' = transcript h
  /\ transcript h' = transcript h
  /\ isListening h' = isListening h
  /\ recognitionRef h' = recognitionRef h
  /\ log h' = (log h ++ [ConsoleLog "Processing voice command:"
                           (Some (Js.toLowerCase (transcript h)))])%list
  /\ timers h' = (timers h ++ [{| delay := 1000; action := AutoResetTranscript |}])%list.
Proof.
  intros Ha. simpl. rewrite transcriptEffect_eq, Ha.
  destruct (processVoiceCommand_frame config (Js.toLowerCase (transcript h))
              (setLastTranscriptRef (transcript h) h))
    as (A & B & C & D & E & F).
  simpl in *. rewrite A, B, C, D, E, F. auto 10.
Qed.

Lemma transcriptEffect_frame (h : Hook Page) :
  let h' := transcriptEffect config h in
  transcript h' = transcript h
  /\ isListening h' = isListening h
  /\ recognitionRef h' = recognitionRef h.
Proof.
  simpl. destruct (admits h) eqn:Ha.
  - destruct (transcriptEffect_admitted h Ha) as (_ & B & C & D & _). auto.
  - rewrite transcriptEffect_eq, Ha. auto.
Qed.

(** C3: when the transcript becomes a non-empty t that is not the one
    admitted last, and then becomes t again, the interpreter is
    entered exactly once: the second run of the effect changes
    nothing at all, so it runs no callback, writes no log and sets no
    timer. *)
Theorem C3_gate_dedup (t : string) (h : Hook Page) :
  t <> "" ->
  lastTranscriptRef h <> t ->
  let h1 := transcriptEffect config (setTranscript t h) in
  let h2 := transcriptEffect config (setTranscript t h1) in
  lastTranscriptRef h1 = t
  /\ interpretations (log h1) = interpretations (log h) + 1
  /\ h2 = h1
  /\ page h2 = page h1
  /\ interpretations (log h2) = interpretations (log h) + 1.
Proof.
  intros Hne Hlast h1 h2.
  assert (Ha : admits (setTranscript t h) = true).
  { unfold admits; simpl. apply andb_true_iff; split.
    - now apply truthy_true.
    - apply negb_true_iff, String.eqb_neq. congruence. }
  destruct (transcriptEffect_admitted _ Ha) as (A & B & _ & _ & E & _).
  fold h1 in A, B, E. simpl in A, B, E.
  assert (Hset : setTranscript t h1 = h1).
  { destruct h1; simpl in *; subst; reflexivity. }
  assert (H21 : h2 = h1).
  { subst h2. rewrite Hset, transcriptEffect_eq, admits_false_same; congruence. }
  assert (Hi : interpretations (log h1) = interpretations (log h) + 1).
  { rewrite E, interpretations_app. reflexivity. }
  rewrite H21. auto.
Qed.

(** C8, as amended: for an admitted transcript the guard field is
    written first.  After the guard and one more statement of the
    effect, interpretation is about to begin and lastTranscriptRef
    already holds the transcript, while the log and the page are still
    untouched; and when the effect has run, lastTranscriptRef holds the
    transcript whatever the interpreter made of it. *)
Theorem C8_guard_written_before_interpretation (h : Hook Page) :
  admits h = true ->
  gateRun config 2 (AtGuard, h)
  = (AtInterpret, setLastTranscriptRef (transcript h) h)
  /\ lastTranscriptRef (snd (gateRun config 2 (AtGuard, h))) = transcript h
  /\ log (snd (gateRun config 2 (AtGuard, h))) = log h
  /\ page (snd (gateRun config 2 (AtGuard, h))) = page h
  /\ lastTranscriptRef (transcriptEffect config h) = transcript h.
Proof.
  intros Ha.
  assert (E : gateRun config 2 (AtGuard, h)
              = (AtInterpret, setLastTranscriptRef (transcript h) h)).
  { simpl. now rewrite Ha. }
  rewrite E. simpl. repeat split.
  now destruct (transcriptEffect_admitted h Ha) as (A & _).
Qed.

End Gate.

(** ** Events *)

Section Session.

Variable Page : Type.
Variable config : VoiceCommandsConfig Page.

Ltac handlers :=
  unfold handle, onstart, onresult, onerror, onend, startListening,
    stopListening, resetTranscript, setCurrentField, fire,
    restartRecognition, engineStart, try_catch, completed, setTimeout.

Ltac cases :=
  repeat match goal with
         | |- context [if ?b then _ else _] => destruct b eqn:?
         | |- context [match timers ?h with _ => _ end] => destruct (timers h) as [|[? []] ?]
         end.

(** No handler of the recognition hook touches the refs of
    [useVoiceCommands] or the page, and none enters the interpreter. *)
Lemma handle_frame (e : Event) (h : Hook Page) :
  lastTranscriptRef (handle e h) = lastTranscriptRef h
  /\ page (handle e h) = page h
  /\ recognitionRef (handle e h) = recognitionRef h
  /\ interpretations (log (handle e h)) = interpretations (log h).
Proof.
  destruct e; handlers; simpl; cases; simpl;
    rewrite ?interpretations_app;
    repeat match goal with
           | |- context [interpretations [?x]] =>
               change (interpretations [x]) with 0
           end;
    rewrite ?Nat.add_0_r; auto.
Qed.

(** A handler leaves the transcript, clears it, or sets it to the
    trimmed text of a final result. *)
Lemma handle_transcript (e : Event) (h : Hook Page) :
  transcript (handle e h) = transcript h
  \/ transcript (handle e h) = ""
  \/ exists text, e = OnResult true text
                  /\ transcript (handle e h) = Js.trim text.
Proof.
  destruct e; handlers; simpl; cases; simpl; auto.
  right; right; eauto.
Qed.

Lemma step_recognitionRef (e : Event) (h : Hook Page) :
  recognitionRef (step config h e) = recognitionRef h.
Proof.
  unfold step.
  destruct (String.eqb _ _).
  - apply handle_frame.
  - destruct (transcriptEffect_frame config (handle e h)) as (_ & _ & R).
    simpl in R. rewrite R. apply handle_frame.
Qed.

Lemma reachable_recognitionRef (isSupported : bool) (p : Page) (h : Hook Page) :
  reachable config isSupported p h -> recognitionRef h = isSupported.
Proof.
  induction 1 as [|h e _ IH]; [reflexivity|].
  now rewrite step_recognitionRef.
Qed.

(** While only [t] is published, the gate stays shut. *)
Lemma step_publishesOnly (t : string) (e : Event) (h : Hook Page) :
  lastTranscriptRef h = t ->
  publishesOnly t e = true ->
  lastTranscriptRef (step config h e) = t
  /\ page (step config h e) = page h
  /\ interpretations (log (step config h e)) = interpretations (log h).
Proof.
  intros Hlast Hq.
  destruct (handle_frame e h) as (L & P & _ & I).
  unfold step.
  destruct (String.eqb (transcript (handle e h)) (transcript h)) eqn:Hch.
  - rewrite L, P, I. auto.
  - assert (Hna : admits (handle e h) = false).
    { destruct (handle_transcript e h) as [E | [E | (text & -> & E)]].
      + apply String.eqb_neq in Hch. contradiction.
      + now apply admits_false_empty.
      + simpl in Hq. apply orb_true_iff in Hq as [Hq | Hq];
          apply String.eqb_eq in Hq.
        * apply admits_false_same. congruence.
        * apply admits_false_empty. congruence. }
    rewrite transcriptEffect_eq, Hna, L, P, I. auto.
Qed.

(** C4, as amended: resetTranscript (called directly or by the
    scheduled timer) and every other operation leave the gate's record
    of the last admitted transcript in place, and as long as no
    different non-empty transcript is published, a transcript equal to
    the recorded one is never forwarded again: over any sequence of
    events whose final results all trim to t or to nothing, the record
    stays t, the interpreter is not entered and the page is not
    touched. *)
Theorem C4_record_kept_while_repeated (t : string) (es : list Event) (h : Hook Page) :
  lastTranscriptRef h = t ->
  forallb (publishesOnly t) es = true ->
  lastTranscriptRef (resetTranscript h) = t
  /\ lastTranscriptRef (run config h es) = t
  /\ interpretations (log (run config h es)) = interpretations (log h)
  /\ page (run config h es) = page h.
Proof.
  intros Hlast Hall. split; [exact Hlast|].
  revert h Hlast Hall.
  induction es as [|e es IH]; intros h Hlast Hall; simpl.
  - auto.
  - simpl in Hall. apply andb_true_iff in Hall as [He Hes].
    destruct (step_publishesOnly e h Hlast He) as (L & P & I).
    destruct (IH (step config h e) L Hes) as (L' & I' & P').
    unfold run in *. rewrite L', I', P', I, P. auto.
Qed.

(** *** The recognition session *)

Lemma step_same_transcript (e : Event) (h : Hook Page) :
  transcript (handle e h) = transcript h -> step config h e = handle e h.
Proof. intros E. unfold step. now rewrite E, String.eqb_refl. Qed.

Lemma run_app (h : Hook Page) (es1 es2 : list Event) :
  run config h (es1 ++ es2) = run config (run config h es1) es2.
Proof. apply fold_left_app. Qed.

(** A no-speech error followed by its retry. *)
Lemma no_speech_then_tick (throws : bool) (h : Hook Page) :
  recognitionRef h = true ->
  timers h = [] ->
  let h1 := step config h (OnError "no-speech") in
  let h2 := step config h1 (Tick throws) in
  h1 = setTimeout RestartRecognition 1000
         (setIsListening false
            (emit (ConsoleError "Speech recognition error:" (Some "no-speech")) h))
  /\ h2 = setTimers []
            (if throws
             then emit (ConsoleLog "Could not restart recognition" None)
                       (emit EngineStart h1)
             else emit EngineStart h1).
Proof.
  intros Href Ht h1 h2.
  assert (E1 : h1 = setTimeout RestartRecognition 1000
                      (setIsListening false
                         (emit (ConsoleError "Speech recognition error:"
                                             (Some "no-speech")) h))).
  { subst h1. rewrite step_same_transcript; simpl; unfold onerror;
      rewrite Href; reflexivity. }
  split; [exact E1|].
  subst h2. rewrite step_same_transcript.
  - rewrite E1. unfold setTimeout. simpl. rewrite Ht. simpl.
    unfold restartRecognition. simpl. rewrite Href. simpl.
    destruct throws; reflexivity.
  - rewrite E1. unfold setTimeout. simpl. rewrite Ht. simpl.
    unfold restartRecognition. simpl. rewrite Href. simpl.
    destruct throws; reflexivity.
Qed.

Lemma noSpeechRound_run (h : Hook Page) :
  recognitionRef h = true ->
  timers h = [] ->
  let h' := run config h noSpeechRound in
  recognitionRef h' = true
  /\ timers h' = []
  /\ engineStarts (log h') = engineStarts (log h) + 1.
Proof.
  intros Href Ht. simpl.
  destruct (no_speech_then_tick false h Href Ht) as (E1 & E2).
  simpl in E1, E2. rewrite E2, E1.
  rewrite step_same_transcript; simpl; unfold onstart; simpl; rewrite Href; simpl.
  - repeat split; try reflexivity; try assumption.
    rewrite !engineStarts_app.
    change (engineStarts [ConsoleError "Speech recognition error:" (Some "no-speech")])
      with 0.
    change (engineStarts [EngineStart]) with 1. lia.
  - reflexivity.
Qed.

(** C1, as amended: every no-speech error schedules exactly one timer
    of 1000 ms and itself starts nothing; when the timer fires, the
    engine's start primitive is invoked exactly once and, whether or
    not that call throws, nothing further is scheduled by the retry.
    A retry that ends in another no-speech error is followed by
    another retry in the same way: the hook keeps no count, so n
    sessions in a row that end in no-speech lead to n automatic start
    invocations. *)
Theorem C1_one_retry_per_no_speech_error (throws : bool) (n : nat) (h : Hook Page) :
  recognitionRef h = true ->
  timers h = [] ->
  let h1 := step config h (OnError "no-speech") in
  let h2 := step config h1 (Tick throws) in
  timers h1 = [{| delay := 1000; action := RestartRecognition |}]
  /\ isListening h1 = false
  /\ engineStarts (log h1) = engineStarts (log h)
  /\ engineStarts (log h2) = engineStarts (log h) + 1
  /\ timers h2 = []
  /\ engineStarts (log (run config h (noSpeechRounds n)))
     = engineStarts (log h) + n.
Proof.
  intros Href Ht h1 h2.
  destruct (no_speech_then_tick throws h Href Ht) as (E1 & E2).
  cbv zeta in E1, E2. subst h2 h1.
  assert (S1 : engineStarts (log (step config h (OnError "no-speech")))
               = engineStarts (log h)).
  { rewrite E1. simpl. rewrite engineStarts_app.
    change (engineStarts [ConsoleError "Speech recognition error:" (Some "no-speech")])
      with 0. lia. }
  repeat split.
  - rewrite E1. simpl. now rewrite Ht.
  - now rewrite E1.
  - exact S1.
  - rewrite E2. destruct throws; simpl; rewrite !engineStarts_app, S1.
    + change (engineStarts [EngineStart]) with 1.
      change (engineStarts [ConsoleLog "Could not restart recognition" None]) with 0.
      lia.
    + change (engineStarts [EngineStart]) with 1. lia.
  - rewrite E2. reflexivity.
  - clear E1 E2 S1. revert h Href Ht.
    induction n as [|n IH]; intros h Href Ht.
    + simpl. lia.
    + change (noSpeechRounds (S n))
        with (noSpeechRound ++ noSpeechRounds n)%list.
      rewrite run_app.
      destruct (noSpeechRound_run h Href Ht) as (R & T & C).
      rewrite IH by assumption. lia.
Qed.

(** C5, as amended: in every reachable state of a supported form, a
    final result sets the transcript to its trimmed text and leaves
    the listening flag exactly as it was; it is the onend event after
    it that sets the flag to false, and it leaves the transcript
    published. *)
Theorem C5_result_keeps_listening (p : Page) (text : string) (h : Hook Page) :
  reachable config true p h ->
  let h1 := step config h (OnResult true text) in
  let h2 := step config h1 OnEnd in
  transcript h1 = Js.trim text
  /\ isListening h1 = isListening h
  /\ isListening h2 = false
  /\ transcript h2 = Js.trim text.
Proof.
  intros Hr h1 h2.
  apply reachable_recognitionRef in Hr.
  assert (H1 : transcript h1 = Js.trim text /\ isListening h1 = isListening h
               /\ recognitionRef h1 = true).
  { subst h1. unfold step.
    assert (Hh : handle (OnResult true text) h = setTranscript (Js.trim text) h).
    { simpl. unfold onresult. now rewrite Hr. }
    rewrite Hh.
    destruct (String.eqb _ _).
    - simpl. auto.
    - destruct (transcriptEffect_frame config (setTranscript (Js.trim text) h))
        as (A & B & C).
      simpl in A, B, C. rewrite A, B, C. auto. }
  destruct H1 as (T1 & L1 & R1).
  assert (H2 : h2 = setIsListening false h1).
  { subst h2. rewrite step_same_transcript; simpl; unfold onend;
      rewrite R1; reflexivity. }
  rewrite H2. simpl. auto.
Qed.

(** C9: startListening always completes normally.  When the form is
    already listening or has no engine it changes nothing; otherwise
    it clears the transcript and invokes the engine's start primitive
    once, and if that call throws it logs the error and sets the
    listening flag to false. *)
Theorem C9_startListening_absorbs (throws : bool) (h : Hook Page) :
  match startListening throws h with
  | Throw _ => False
  | Normal h' =>
      if recognitionRef h && negb (isListening h)
      then transcript h' = ""
           /\ isListening h' = false
           /\ log h' = (log h ++ EngineStart ::
                          (if throws
                           then [ConsoleError "Failed to start recognition:" None]
                           else []))%list
           /\ lastTranscriptRef h' = lastTranscriptRef h
           /\ currentFieldRef h' = currentFieldRef h
           /\ timers h' = timers h
           /\ page h' = page h
      else h' = h
  end.
Proof.
  unfold startListening, engineStart, try_catch.
  destruct (recognitionRef h && negb (isListening h)) eqn:G; [|reflexivity].
  apply andb_true_iff in G as [_ G]. apply negb_true_iff in G.
  destruct throws; simpl; rewrite <- ?app_assoc; simpl; auto 10.
Qed.

End Session.

(** ** Concrete runs *)

(** C2 at a concrete command: "confirm password hunter 2" said while the
    password field is current. *)
Lemma C2_confirm_password_prefix_witness :
  classify (Some Password) "confirm password hunter 2"
  = SelectField ConfirmPassword "hunter 2"
  /\ page (processVoiceCommand (recorder true true) "confirm password hunter 2"
             (setCurrentFieldRef (Some Password) (mount true [])))
     = [ConfirmPasswordCall "hunter 2"].
Proof.
  pose proof (@C2_confirm_password_prefix (list Call) (recorder true true)
                (Some Password) " hunter 2"
                (setCurrentFieldRef (Some Password) (mount true []))
                eq_refl) as (Hc & _ & Hp & _).
  split; [exact Hc | exact Hp].
Defined.

(** C2 as stated fails: a command can contain "confirm password"
    followed by a value without starting with it, and then no field is
    selected; and a navigation word in the value wins over the field
    selection. *)
Lemma C2_counterexample :
  Js.includes "please confirm password abc" "confirm password" = true
  /\ classify None "please confirm password abc" = NoOp
  /\ classify None "please confirm password abc" <> SelectField ConfirmPassword "abc"
  /\ page (processVoiceCommand (recorder true true) "please confirm password abc"
             (mount true [])) = []
  /\ classify None "confirm password next" = Navigate Next.
Proof.
  repeat split; try reflexivity. discriminate.
Qed.


(** C7 at the form's example: the email field is current and the user
    says just the address. *)
Lemma C7_fallback_witness :
  classify (Some Email) "jane@example.com"
  = DirectInput Email "jane@example.com"
  /\ page (processVoiceCommand (recorder true true) "jane@example.com"
             (setCurrentFieldRef (Some Email) (mount true [])))
     = [EmailCall "jane@example.com"].
Proof.
  pose proof (@C7_fallback (list Call) (recorder true true) "jane@example.com"
                (setCurrentFieldRef (Some Email) (mount true []))
                ltac:(discriminate) eq_refl eq_refl) as (Hc & _ & _ & Hp).
  split; [exact Hc | exact Hp].
Defined.

(** C3 at a concrete transcript: "next" twice in a row on a fresh form
    is one NextCall. *)
Lemma C3_gate_dedup_witness :
  let h1 := transcriptEffect (recorder true true)
              (setTranscript "next" (mount true [])) in
  let h2 := transcriptEffect (recorder true true) (setTranscript "next" h1) in
  h2 = h1 /\ page h2 = [NextCall] /\ interpretations (log h2) = 1.
Proof.
  pose proof (@C3_gate_dedup (list Call) (recorder true true) "next"
                (mount true []) ltac:(discriminate) ltac:(discriminate))
    as (_ & _ & H21 & _ & Hi).
  exact (conj H21 (conj eq_refl Hi)).
Defined.

(** C4 at a concrete run: after "next" was admitted, the reset timer
    fires and "next" is heard again, twice; nothing more is called. *)
Lemma C4_record_kept_while_repeated_witness :
  let h := run (recorder true true) (mount true []) [OnResult true "next"] in
  let h' := run (recorder true true) h
              [Tick false; OnResult true "next"; ResetTranscript;
               OnResult true " next "] in
  page h = [NextCall] /\ lastTranscriptRef h' = "next" /\ page h' = [NextCall].
Proof.
  pose proof (@C4_record_kept_while_repeated (list Call) (recorder true true)
                "next"
                [Tick false; OnResult true "next"; ResetTranscript;
                 OnResult true " next "]
                (run (recorder true true) (mount true []) [OnResult true "next"])
                eq_refl eq_refl) as (_ & Hl & _ & Hp).
  exact (conj eq_refl (conj Hl Hp)).
Defined.

(** C4 as stated fails: once another transcript has been admitted in
    between, the same utterance is forwarded again.  "next", "email",
    "next", each followed by its reset, calls onNextCommand twice. *)
Lemma C4_counterexample :
  let h := run (recorder true true) (mount true [])
             [OnResult true "next"; Tick false;
              OnResult true "email"; Tick false;
              OnResult true "next"] in
  page h = [NextCall; NextCall] /\ interpretations (log h) = 3.
Proof.
  split; reflexivity.
Qed.

(** C8 at a concrete transcript: "hello" on a fresh form. *)
Lemma C8_guard_written_before_interpretation_witness :
  gateRun (recorder true true) 2 (AtGuard, setTranscript "hello" (mount true []))
  = (AtInterpret,
     setLastTranscriptRef "hello" (setTranscript "hello" (mount true []))).
Proof.
  exact (proj1 (@C8_guard_written_before_interpretation (list Call)
                  (recorder true true)
                  (setTranscript "hello" (mount true [])) eq_refl)).
Defined.

(** C8 as stated fails: with "hello" published on a fresh form, the
    effect reaches the call of the interpreter with lastTranscriptRef
    already "hello" and nothing interpreted yet; and although the
    interpreter then finds nothing to do, the field stays updated. *)
Lemma C8_counterexample :
  let h := setTranscript "hello" (mount true (@nil Call)) in
  let c := gateRun (recorder true true) 2 (AtGuard, h) in
  fst c = AtInterpret
  /\ lastTranscriptRef (snd c) = "hello"
  /\ interpretations (log (snd c)) = 0
  /\ classify (currentFieldRef h) (Js.toLowerCase "hello") = NoOp
  /\ lastTranscriptRef (transcriptEffect (recorder true true) h) = "hello".
Proof.
  repeat split.
Qed.

(** C1 at a concrete state: a fresh supported form, a retry whose start
    call throws, and three rounds. *)
Lemma C1_one_retry_per_no_speech_error_witness :
  let h1 := step (recorder true true) (mount true []) (OnError "no-speech") in
  let h2 := step (recorder true true) h1 (Tick true) in
  timers h1 = [{| delay := 1000; action := RestartRecognition |}]
  /\ engineStarts (log h2) = 1
  /\ timers h2 = []
  /\ engineStarts (log (run (recorder true true) (mount true [])
                          (noSpeechRounds 3))) = 3.
Proof.
  pose proof (@C1_one_retry_per_no_speech_error (list Call) (recorder true true)
                true 3 (mount true []) eq_refl eq_refl)
    as (Ht1 & _ & _ & Hs2 & Ht2 & Hn).
  exact (conj Ht1 (conj Hs2 (conj Ht2 Hn))).
Defined.

(** C1 as stated fails: when the session that the retry opened ends in
    no-speech as well, its error schedules a retry of its own, and the
    engine's start primitive is invoked a second time without any
    manual start. *)
Lemma C1_counterexample :
  let h1 := run (recorder true true) (mount true []) noSpeechRound in
  let h2 := run (recorder true true) h1 [OnError "no-speech"; Tick false] in
  engineStarts (log h1) = 1
  /\ timers (step (recorder true true) h1 (OnError "no-speech"))
     = [{| delay := 1000; action := RestartRecognition |}]
  /\ engineStarts (log h2) = 2
  /\ log h2 = [ConsoleError "Speech recognition error:" (Some "no-speech");
               EngineStart;
               ConsoleError "Speech recognition error:" (Some "no-speech");
               EngineStart].
Proof.
  repeat split.
Qed.

(** C5 at a concrete state: the form was started and the engine opened
    its session. *)
Lemma C5_result_keeps_listening_witness :
  let h := run (recorder true true) (mount true []) [StartListening false; OnStart] in
  let h1 := step (recorder true true) h (OnResult true " hello ") in
  transcript h1 = "hello"
  /\ isListening h1 = isListening h
  /\ isListening (step (recorder true true) h1 OnEnd) = false.
Proof.
  pose proof (@C5_result_keeps_listening (list Call) (recorder true true)
                [] " hello "
                (run (recorder true true) (mount true [])
                   [StartListening false; OnStart])
                (reachable_step OnStart
                   (reachable_step (StartListening false)
                      (reachable_mount (recorder true true) true []))))
    as (Ht & Hl & He & _).
  exact (conj Ht (conj Hl He)).
Defined.

(** C5 as stated fails: in the state reached by start and onstart, a
    final result publishes "hello" while the listening flag is still
    true. *)
Lemma C5_counterexample :
  let h := run (recorder true true) (mount true []) [StartListening false; OnStart] in
  let h1 := step (recorder true true) h (OnResult true "hello") in
  reachable (recorder true true) true [] h1
  /\ transcript h = "" /\ transcript h1 = "hello"
  /\ isListening h1 = true.
Proof.
  repeat split.
  exact (reachable_step (OnResult true "hello")
           (reachable_step OnStart
              (reachable_step (StartListening false)
                 (reachable_mount (recorder true true) true [])))).
Qed.

(** ** The pages *)

Lemma registerPage_allFilled (d : RegisterPage.FormData) :
  RegisterPage.allFilled d = true <->
  RegisterPage.name d <> "" /\ RegisterPage.email d <> ""
  /\ RegisterPage.password d <> "" /\ RegisterPage.confirmPassword d <> "".
Proof.
  unfold RegisterPage.allFilled.
  rewrite !andb_true_iff, !truthy_true. tauto.
Qed.

(** On the registration page "sign in" is not a submission: it leaves
    for the login page whatever the form holds. *)
Lemma registerPage_sign_in (s : RegisterPage.State) :
  onSignInCommand RegisterPage.config s
  = RegisterPage.effect (NavigateTo "/login") s.
Proof. reflexivity. Qed.

(** C6, as amended: a submission is guarded on the page whose form it
    submits.  On the login page Navigate(SignIn) calls handleSubmit
    once when email and password are both non-empty and otherwise
    changes nothing; on the registration page Navigate(SignUp) calls
    handleSubmit once when all four fields are non-empty and otherwise
    changes nothing; and there Navigate(Next), with the page's own
    current field at confirmPassword, calls handleSubmit once when all
    four fields are non-empty and otherwise leaves the page, still at
    confirmPassword, as it is.  The hook's currentFieldRef plays no
    part: with the page's current field elsewhere, Navigate(Next) only
    moves the focus and never submits.  The other navigations are not
    guarded: on the registration page Navigate(SignIn) leaves for
    /login whatever the form holds, and on the login page
    Navigate(SignUp) and Navigate(Next) do nothing.  None of them
    changes the form data or currentFieldRef. *)
Theorem C6_guarded_submission :
  (forall (command : string) (h : Hook LoginPage.State),
      classify (currentFieldRef h) command = Navigate SignIn ->
      let h' := processVoiceCommand LoginPage.config command h in
      currentFieldRef h' = currentFieldRef h
      /\ LoginPage.email (page h') = LoginPage.email (page h)
      /\ LoginPage.password (page h') = LoginPage.password (page h)
      /\ LoginPage.effects (page h') =
         (if Js.truthy (LoginPage.email (page h))
             && Js.truthy (LoginPage.password (page h))
          then LoginPage.effects (page h) ++ [HandleSubmit]
          else LoginPage.effects (page h))%list)
  /\ (forall (command : string) (h : Hook RegisterPage.State),
      classify (currentFieldRef h) command = Navigate SignUp ->
      let h' := processVoiceCommand RegisterPage.config command h in
      currentFieldRef h' = currentFieldRef h
      /\ RegisterPage.formData (page h') = RegisterPage.formData (page h)
      /\ RegisterPage.currentField (page h') = RegisterPage.currentField (page h)
      /\ RegisterPage.effects (page h') =
         (if RegisterPage.allFilled (RegisterPage.formData (page h))
          then RegisterPage.effects (page h) ++ [HandleSubmit]
          else RegisterPage.effects (page h))%list)
  /\ (forall (command : string) (h : Hook RegisterPage.State),
      classify (currentFieldRef h) command = Navigate Next ->
      let h' := processVoiceCommand RegisterPage.config command h in
      currentFieldRef h' = currentFieldRef h
      /\ RegisterPage.formData (page h') = RegisterPage.formData (page h)
      /\ (RegisterPage.currentField (page h) = ConfirmPassword ->
          RegisterPage.currentField (page h') = ConfirmPassword
          /\ RegisterPage.effects (page h') =
             (if RegisterPage.allFilled (RegisterPage.formData (page h))
              then RegisterPage.effects (page h) ++ [HandleSubmit]
              else RegisterPage.effects (page h))%list)
      /\ (RegisterPage.currentField (page h) <> ConfirmPassword ->
          RegisterPage.currentField (page h') <> RegisterPage.currentField (page h)
          /\ RegisterPage.effects (page h') =
             (RegisterPage.effects (page h)
                ++ [Focus (RegisterPage.currentField (page h'))])%list))
  /\ (forall (command : string) (h : Hook RegisterPage.State),
      classify (currentFieldRef h) command = Navigate SignIn ->
      let h' := processVoiceCommand RegisterPage.config command h in
      currentFieldRef h' = currentFieldRef h
      /\ RegisterPage.formData (page h') = RegisterPage.formData (page h)
      /\ RegisterPage.currentField (page h') = RegisterPage.currentField (page h)
      /\ RegisterPage.effects (page h') =
         (RegisterPage.effects (page h) ++ [NavigateTo "/login"])%list)
  /\ (forall (command : string) (h : Hook LoginPage.State),
      classify (currentFieldRef h) command = Navigate SignUp
      \/ classify (currentFieldRef h) command = Navigate Next ->
      let h' := processVoiceCommand LoginPage.config command h in
      currentFieldRef h' = currentFieldRef h /\ page h' = page h)
  /\ (forall d : RegisterPage.FormData,
      RegisterPage.allFilled d = true <->
      RegisterPage.name d <> "" /\ RegisterPage.email d <> ""
      /\ RegisterPage.password d <> "" /\ RegisterPage.confirmPassword d <> "").
Proof.
  repeat apply conj.
  - intros command h Hc. cbv zeta.
    rewrite processVoiceCommand_classify, Hc. simpl.
    destruct (Js.truthy (LoginPage.email (page h))
              && Js.truthy (LoginPage.password (page h))); simpl; auto.
  - intros command h Hc. cbv zeta.
    rewrite processVoiceCommand_classify, Hc. simpl.
    destruct (RegisterPage.allFilled (RegisterPage.formData (page h)));
      simpl; auto.
  - intros command h Hc. cbv zeta.
    rewrite processVoiceCommand_classify, Hc. simpl.
    destruct (RegisterPage.currentField (page h)) eqn:Hf; simpl;
      repeat apply conj; try reflexivity;
      try (intros H; discriminate H);
      try (intros H; now contradiction H);
      try (intros _; split; [discriminate | reflexivity]).
    + destruct (RegisterPage.allFilled (RegisterPage.formData (page h)));
        reflexivity.
    + intros _.
      destruct (RegisterPage.allFilled (RegisterPage.formData (page h)));
        simpl; rewrite Hf; auto.
  - intros command h Hc. cbv zeta.
    rewrite processVoiceCommand_classify, Hc. simpl. auto.
  - intros command h [Hc | Hc]; cbv zeta;
      rewrite processVoiceCommand_classify, Hc; simpl; auto.
  - apply registerPage_allFilled.
Qed.

(** C6 at concrete forms: "sign in" on a filled login form, and "sign
    up" and "next" at confirmPassword on a filled registration form. *)
Lemma C6_guarded_submission_witness :
  LoginPage.effects
    (page (processVoiceCommand LoginPage.config "sign in"
             (mount true {| LoginPage.email := "jane@example.com";
                            LoginPage.password := "s3cret";
                            LoginPage.effects := [] |})))
  = [HandleSubmit]
  /\ RegisterPage.effects
       (page (processVoiceCommand RegisterPage.config "sign up"
                (mount true
                   {| RegisterPage.formData :=
                        {| RegisterPage.name := "jane";
                           RegisterPage.email := "jane@example.com";
                           RegisterPage.password := "s3cret";
                           RegisterPage.confirmPassword := "s3cret" |};
                      RegisterPage.currentField := Email;
                      RegisterPage.effects := [] |})))
     = [HandleSubmit]
  /\ RegisterPage.effects
       (page (processVoiceCommand RegisterPage.config "next"
                (mount true
                   {| RegisterPage.formData :=
                        {| RegisterPage.name := "jane";
                           RegisterPage.email := "jane@example.com";
                           RegisterPage.password := "s3cret";
                           RegisterPage.confirmPassword := "s3cret" |};
                      RegisterPage.currentField := ConfirmPassword;
                      RegisterPage.effects := [] |})))
     = [HandleSubmit].
Proof.
  destruct C6_guarded_submission as (HsignIn & HsignUp & Hnext & _).
  repeat apply conj.
  - exact (proj2 (proj2 (proj2
             (HsignIn "sign in"
                (mount true {| LoginPage.email := "jane@example.com";
                               LoginPage.password := "s3cret";
                               LoginPage.effects := [] |})
                eq_refl)))).
  - exact (proj2 (proj2 (proj2
             (HsignUp "sign up"
                (mount true
                   {| RegisterPage.formData :=
                        {| RegisterPage.name := "jane";
                           RegisterPage.email := "jane@example.com";
                           RegisterPage.password := "s3cret";
                           RegisterPage.confirmPassword := "s3cret" |};
                      RegisterPage.currentField := Email;
                      RegisterPage.effects := [] |})
                eq_refl)))).
  - exact (proj2 (proj1 (proj2 (proj2
             (Hnext "next"
                (mount true
                   {| RegisterPage.formData :=
                        {| RegisterPage.name := "jane";
                           RegisterPage.email := "jane@example.com";
                           RegisterPage.password := "s3cret";
                           RegisterPage.confirmPassword := "s3cret" |};
                      RegisterPage.currentField := ConfirmPassword;
                      RegisterPage.effects := [] |})
                eq_refl))) eq_refl)).
Defined.

(** C6 as stated fails twice.  On the registration page "sign in" is
    not guarded and not a no-op: on an empty form it leaves for /login.
    And Navigate(Next) looks at the page's own current field, not at
    the hook's: after all four fields were dictated, "name jane doe"
    and then "confirm password" alone leave currentFieldRef at
    ConfirmPassword and the page at name, and "next" then submits
    nothing although all four fields are populated. *)
Lemma C6_counterexample :
  (let h := run RegisterPage.config (mount true RegisterPage.initial)
              [OnResult true "sign in"] in
   RegisterPage.allFilled (RegisterPage.formData RegisterPage.initial) = false
   /\ RegisterPage.effects (page h) = [NavigateTo "/login"]
   /\ page h <> RegisterPage.initial)
  /\ (let h := run RegisterPage.config (mount true RegisterPage.initial)
                 [OnResult true "name jane";
                  OnResult true "email jane@example.com";
                  OnResult true "password s3cret";
                  OnResult true "confirm password s3cret";
                  OnResult true "name jane doe";
                  OnResult true "confirm password"] in
      let h' := step RegisterPage.config h (OnResult true "next") in
      currentFieldRef h = Some ConfirmPassword
      /\ RegisterPage.allFilled (RegisterPage.formData (page h)) = true
      /\ RegisterPage.currentField (page h) = Name
      /\ RegisterPage.currentField (page h') = Email
      /\ ~ In HandleSubmit (RegisterPage.effects (page h'))).
Proof.
  split.
  - vm_compute. repeat split. discriminate.
  - vm_compute. repeat split.
    intros H. repeat (destruct H as [H | H]; [discriminate H|]). exact H.
Qed.

(** C10, as amended: for the transcript "email john dot doe at example
    dot com" the interpreter strips only the "email" prefix and passes
    "john dot doe at example dot com" to the email callback; the
    registration page stores it with all white space removed and in
    lower case, "johndotdoeatexampledotcom", and both the hook's and the
    page's current field become Email. *)
Theorem C10_email_end_to_end :
  let t := "email john dot doe at example dot com" in
  let h := run RegisterPage.config (mount true RegisterPage.initial)
               [OnResult true t] in
  classify None (Js.toLowerCase t)
  = SelectField Email "john dot doe at example dot com"
  /\ page (run (recorder true true) (mount true []) [OnResult true t])
     = [EmailCall "john dot doe at example dot com"]
  /\ Js.toLowerCase (Js.stripWhiteSpace "john dot doe at example dot com")
     = "johndotdoeatexampledotcom"
  /\ RegisterPage.email (RegisterPage.formData (page h))
     = "johndotdoeatexampledotcom"
  /\ currentFieldRef h = Some Email
  /\ RegisterPage.currentField (page h) = Email.
Proof.
  vm_compute. repeat split.
Qed.

(** C10 as stated fails: the inline value keeps the first "dot", so it
    is not "john doe at example dot com", and the stored value is not
    "johndoeatexampledotcom". *)
Lemma C10_counterexample :
  page (run (recorder true true) (mount true [])
          [OnResult true "email john dot doe at example dot com"])
  <> [EmailCall "john doe at example dot com"]
  /\ RegisterPage.email
       (RegisterPage.formData
          (page (run RegisterPage.config (mount true RegisterPage.initial)
                   [OnResult true "email john dot doe at example dot com"])))
     <> "johndoeatexampledotcom".
Proof.
  split; vm_compute; discriminate.
Qed.

(** * Further properties of the hooks *)

(** ** Lower case and white space *)

Lemma lowerChar_idempotent (c : ascii) :
  Js.lowerChar (Js.lowerChar c) = Js.lowerChar c.
Proof. destruct c as [[] [] [] [] [] [] [] []]; reflexivity. Qed.

Lemma isWhiteSpace_lowerChar (c : ascii) :
  Js.isWhiteSpace (Js.lowerChar c) = Js.isWhiteSpace c.
Proof. destruct c as [[] [] [] [] [] [] [] []]; reflexivity. Qed.

Lemma toLowerCase_idempotent (s : string) :
  Js.toLowerCase (Js.toLowerCase s) = Js.toLowerCase s.
Proof.
  induction s as [|c s IH]; simpl; [reflexivity|].
  now rewrite lowerChar_idempotent, IH.
Qed.

Lemma lower_cons (c : ascii) (s : string) :
  Js.toLowerCase (String c s) = String c s
  <-> Js.lowerChar c = c /\ Js.toLowerCase s = s.
Proof.
  simpl. split.
  - intros H. injection H as Hc Hs. auto.
  - intros [Hc Hs]. now rewrite Hc, Hs.
Qed.

Lemma lower_drop (n : nat) (s : string) :
  Js.toLowerCase s = s -> Js.toLowerCase (Js.drop n s) = Js.drop n s.
Proof.
  revert s. induction n as [|n IH]; intros s H; simpl; [exact H|].
  destruct s as [|c s]; [reflexivity|].
  apply lower_cons in H as [_ H]. auto.
Qed.

Lemma lower_trimStart (s : string) :
  Js.toLowerCase s = s -> Js.toLowerCase (Js.trimStart s) = Js.trimStart s.
Proof.
  induction s as [|c s IH]; intros H; [reflexivity|].
  change (Js.trimStart (String c s))
    with (if Js.isWhiteSpace c then Js.trimStart s else String c s).
  destruct (Js.isWhiteSpace c); [|exact H].
  apply lower_cons in H as [_ H]. auto.
Qed.

Lemma lower_trimEnd (s : string) :
  Js.toLowerCase s = s -> Js.toLowerCase (Js.trimEnd s) = Js.trimEnd s.
Proof.
  induction s as [|c s IH]; intros H; [reflexivity|].
  apply lower_cons in H as [Hc Hs]. specialize (IH Hs).
  simpl Js.trimEnd.
  destruct (Js.trimEnd s) as [|d t] eqn:E.
  - destruct (Js.isWhiteSpace c); [reflexivity|].
    apply lower_cons. auto.
  - apply lower_cons. auto.
Qed.

Lemma lower_trim (s : string) :
  Js.toLowerCase s = s -> Js.toLowerCase (Js.trim s) = Js.trim s.
Proof. intros H. unfold Js.trim. now apply lower_trimEnd, lower_trimStart. Qed.

Lemma lower_replace_empty (s p : string) :
  Js.toLowerCase s = s ->
  Js.toLowerCase (Js.replace s p "") = Js.replace s p "".
Proof.
  induction s as [|c s IH]; intros H.
  - simpl. destruct (Js.startsWith "" p); [|reflexivity].
    destruct (String.length p); reflexivity.
  - change (Js.replace (String c s) p "")
      with (if Js.startsWith (String c s) p
            then "" ++ Js.drop (String.length p) (String c s)
            else String c (Js.replace s p "")).
    destruct (Js.startsWith (String c s) p).
    + simpl append. now apply lower_drop.
    + apply lower_cons in H as [Hc Hs]. apply lower_cons. auto.
Qed.

(** ** What the interpreter does with a command *)

Ltac branches :=
  repeat match goal with
         | |- context [if ?b then _ else _] =>
             lazymatch b with
             | Js.truthy _ => fail
             | _ => destruct b eqn:?
             end
         end.

(** The value of a field selection or of a direct input is non-empty
    where a callback would be run on it, and it is in lower case when
    the command is. *)
Lemma classify_value (cur : option Field) (command : string) :
  Js.toLowerCase command = command ->
  match classify cur command with
  | SelectField _ v => Js.toLowerCase v = v
  | DirectInput _ v => Js.toLowerCase v = v /\ Js.truthy v = true
  | _ => True
  end.
Proof.
  intros Hl. unfold classify. branches; trivial;
    try (apply lower_trim, lower_replace_empty; exact Hl).
  destruct cur as [f|]; [|trivial].
  destruct (Js.truthy command) eqn:T; simpl; auto.
Qed.

Section MoreInterpreter.

Variable Page : Type.
Variable config : VoiceCommandsConfig Page.

(** A command that matches a navigation pattern is a navigation,
    whatever else it says: a dictated value that contains "next", "sign
    in", "sign up", "go to sign up" or "signup page" never reaches a
    field.  The navigation callback runs and currentFieldRef stays. *)
Theorem navigation_shadows_dictation (cur : option Field) (command : string) (h : Hook Page) :
  matchesNavigation command = true ->
  exists t : NavTarget,
    classify cur command = Navigate t
    /\ currentFieldRef (processVoiceCommand config command h) = currentFieldRef h
    /\ page (processVoiceCommand config command h) = navCallback config t (page h).
Proof.
  intros Hn.
  assert (Hc : forall c, exists t, classify c command = Navigate t).
  { intros c. unfold classify, matchesNavigation in *.
    destruct (Js.includes command "go to sign up" || Js.includes command "signup page");
      [eauto|].
    destruct (Js.includes command "sign in" && negb (Js.includes command "go to"));
      [eauto|].
    destruct (Js.includes command "sign up" && negb (Js.includes command "go to"));
      [eauto|].
    simpl in Hn. rewrite Hn. eauto. }
  destruct (Hc cur) as (t & Ht).
  destruct (Hc (currentFieldRef h)) as (t' & Ht').
  assert (t' = t).
  { unfold classify in Ht, Ht'. revert Ht Ht'. branches; try congruence.
    destruct cur, (currentFieldRef h); try destruct (Js.truthy command);
      discriminate. }
  subst t'. exists t. split; [exact Ht|].
  rewrite processVoiceCommand_classify, Ht'. simpl. auto.
Qed.

(** A command that contains "go to" is never a sign-in or a sign-up,
    although it may contain "sign in" or "sign up". *)
Theorem go_to_is_not_sign_in (cur : option Field) (command : string) :
  Js.includes command "go to" = true ->
  classify cur command <> Navigate SignIn
  /\ classify cur command <> Navigate SignUp.
Proof.
  intros Hg. unfold classify. rewrite Hg. simpl negb.
  rewrite !andb_false_r.
  split; branches; try discriminate;
    destruct cur; try destruct (Js.truthy command); discriminate.
Qed.

(** The interpreter moves currentFieldRef only to the field of a field
    selection; every other command leaves it where it was. *)
Lemma processVoiceCommand_currentFieldRef (command : string) (h : Hook Page) :
  currentFieldRef (processVoiceCommand config command h) =
  match classify (currentFieldRef h) command with
  | SelectField f _ => Some f
  | _ => currentFieldRef h
  end.
Proof.
  rewrite processVoiceCommand_classify.
  destruct (classify (currentFieldRef h) command) as [t|f v|f v|]; simpl;
    try reflexivity.
  - destruct (Js.truthy v); [|reflexivity].
    destruct f; simpl; unfold callOptional;
      try destruct (onNameCommand config);
      try destruct (onConfirmPasswordCommand config); reflexivity.
  - destruct f; simpl; unfold callOptional;
      try destruct (onNameCommand config);
      try destruct (onConfirmPasswordCommand config); reflexivity.
Qed.

Lemma step_currentFieldRef (e : Event) (h : Hook Page) :
  currentFieldRef h <> None ->
  clearsCurrentField e = false ->
  currentFieldRef (step config h e) <> None.
Proof.
  intros Hcur He.
  assert (Hh : currentFieldRef (handle e h) <> None).
  { destruct e; simpl;
      unfold onstart, onresult, onerror, onend, startListening, stopListening,
        resetTranscript, setCurrentField, fire, restartRecognition, engineStart,
        try_catch, completed, setTimeout;
      repeat match goal with
             | |- context [if ?b then _ else _] => destruct b
             | |- context [match timers ?x with _ => _ end] =>
                 destruct (timers x) as [|[? []] ?]
             end; simpl; try assumption.
    destruct f; [discriminate | discriminate He]. }
  unfold step. destruct (String.eqb _ _); [exact Hh|].
  rewrite transcriptEffect_eq. destruct (admits (handle e h)); [|exact Hh].
  simpl. rewrite processVoiceCommand_currentFieldRef. simpl.
  destruct (classify _ _); try exact Hh. discriminate.
Qed.

(** Once a field is current, nothing that is heard or that happens to
    the session makes currentFieldRef null again: only an explicit
    setCurrentField(null) does. *)
Theorem voice_never_clears_current_field (es : list Event) (h : Hook Page) :
  currentFieldRef h <> None ->
  forallb (fun e => negb (clearsCurrentField e)) es = true ->
  currentFieldRef (run config h es) <> None.
Proof.
  revert h. induction es as [|e es IH]; intros h Hcur Hes; simpl; [exact Hcur|].
  simpl in Hes. apply andb_true_iff in Hes as [He Hes].
  apply negb_true_iff in He.
  apply IH; [|exact Hes].
  now apply step_currentFieldRef.
Qed.

End MoreInterpreter.

(** A password that contains "confirm" cannot be dictated with the
    "password" keyword: such a command selects no field.  It is routed
    as a direct input to the field that is current, or dropped when
    there is none. *)
Theorem password_containing_confirm_is_not_selected (cur : option Field) (X : string) :
  Js.includes ("password" ++ X) "confirm" = true ->
  matchesNavigation ("password" ++ X) = false ->
  classify cur ("password" ++ X) =
  match cur with
  | Some f => DirectInput f ("password" ++ X)
  | None => NoOp
  end.
Proof.
  intros Hc Hn.
  apply matchesNavigation_false in Hn as (N1 & N2 & N3 & N4).
  unfold classify. rewrite N1, N2, N3, N4, Hc. reflexivity.
Qed.

(** A field keyword is recognised at the very start of the command
    only, without looking for a word boundary, and exactly that leading
    keyword is removed: whatever follows it, trimmed, is the inline
    value (so "namely x" selects the name field with value "ly x"). *)
Theorem field_keyword_is_a_prefix (cur : option Field) (X : string) :
  (matchesNavigation ("name" ++ X) = false ->
   classify cur ("name" ++ X) = SelectField Name (Js.trim X))
  /\ (matchesNavigation ("email" ++ X) = false ->
      classify cur ("email" ++ X) = SelectField Email (Js.trim X))
  /\ (matchesNavigation ("password" ++ X) = false ->
      Js.includes ("password" ++ X) "confirm" = false ->
      classify cur ("password" ++ X) = SelectField Password (Js.trim X)).
Proof.
  repeat apply conj.
  - intros Hn. apply matchesNavigation_false in Hn as (N1 & N2 & N3 & N4).
    unfold classify. rewrite N1, N2, N3, N4. reflexivity.
  - intros Hn. apply matchesNavigation_false in Hn as (N1 & N2 & N3 & N4).
    unfold classify. rewrite N1, N2, N3, N4. reflexivity.
  - intros Hn Hc. apply matchesNavigation_false in Hn as (N1 & N2 & N3 & N4).
    unfold classify. rewrite N1, N2, N3, N4, Hc. reflexivity.
Qed.

(** ** What a form can observe of the hooks *)

Section MoreSession.

Variable Page : Type.
Variable config : VoiceCommandsConfig Page.

Lemma unsupported_step (p : Page) (f : option Field) (e : Event) :
  exists f' : option Field,
    step config (setCurrentFieldRef f (mount false p)) e
    = setCurrentFieldRef f' (mount false p).
Proof.
  destruct e as [| isFinal text | err | | thr | | | f0 | thr];
    try (exists f; reflexivity).
  exists f0. reflexivity.
Qed.

(** Without a speech engine the form is inert: whatever events arrive
    and whatever the page calls, it never listens, never publishes a
    transcript, calls no engine primitive, writes nothing to the
    console, sets no timer and runs no callback. *)
Theorem unsupported_form_is_inert (p : Page) (es : list Event) :
  let h := run config (mount false p) es in
  isListening h = false
  /\ transcript h = ""
  /\ lastTranscriptRef h = ""
  /\ timers h = []
  /\ log h = []
  /\ page h = p.
Proof.
  assert (H : forall es f, exists f',
               run config (setCurrentFieldRef f (mount false p)) es
               = setCurrentFieldRef f' (mount false p)).
  { clear es. induction es as [|e es IH]; intros f; simpl.
    - now exists f.
    - destruct (unsupported_step p f e) as (f1 & E).
      rewrite E. apply IH. }
  destruct (H es None) as (f' & E).
  change (setCurrentFieldRef None (mount false p)) with (mount false p) in E.
  simpl. rewrite E. simpl. auto 10.
Qed.

(** Handlers only add to the log. *)
Lemma handle_log (x : LogEntry) (e : Event) (h : Hook Page) :
  In x (log h) -> In x (log (handle e h)).
Proof.
  intros Hx.
  destruct e as [| isFinal text | err | | thr | | | f | thr]; simpl;
    unfold onstart, onresult, onerror, onend, startListening, stopListening,
      resetTranscript, setCurrentField, fire, restartRecognition, engineStart,
      try_catch, completed, setTimeout;
    repeat match goal with
           | |- context [if ?b then _ else _] => destruct b
           | |- context [match timers ?x with _ => _ end] =>
               destruct (timers x) as [|[? []] ?]
           end; simpl; rewrite ?in_app_iff; auto.
Qed.

(** The transcript the gate admitted last was handed to the
    interpreter: its announcement is in the log. *)
Lemma reachable_record_interpreted (isSupported : bool) (p : Page) (h : Hook Page) :
  reachable config isSupported p h ->
  lastTranscriptRef h = ""
  \/ In (ConsoleLog "Processing voice command:"
           (Some (Js.toLowerCase (lastTranscriptRef h)))) (log h).
Proof.
  induction 1 as [|h e _ IH]; [now left|].
  assert (Hh : lastTranscriptRef (handle e h) = ""
               \/ In (ConsoleLog "Processing voice command:"
                        (Some (Js.toLowerCase (lastTranscriptRef (handle e h)))))
                     (log (handle e h))).
  { destruct (handle_frame e h) as (L & _). rewrite L.
    destruct IH as [IH | IH]; [now left|]. right. now apply handle_log. }
  unfold step. destruct (String.eqb _ _); [exact Hh|].
  destruct (admits (handle e h)) eqn:Ha.
  - destruct (transcriptEffect_admitted config _ Ha) as (A & _ & _ & _ & E & _).
    right. rewrite A, E. apply in_or_app. right. simpl. auto.
  - rewrite transcriptEffect_eq, Ha. exact Hh.
Qed.

(** At the end of every turn of the event loop the transcript is empty
    or it is the transcript the gate admitted last, and a transcript
    that is not empty has been handed to the interpreter at least once:
    the announcement of its lower-case form is in the log.  (A repeat
    of the transcript admitted last is published without being
    interpreted again.) *)
Theorem published_transcript_is_admitted (isSupported : bool) (p : Page) (h : Hook Page) :
  reachable config isSupported p h ->
  (transcript h = "" \/ transcript h = lastTranscriptRef h)
  /\ (transcript h <> "" ->
      In (ConsoleLog "Processing voice command:"
            (Some (Js.toLowerCase (transcript h)))) (log h)).
Proof.
  intros Hr.
  assert (Hd : transcript h = "" \/ transcript h = lastTranscriptRef h).
  { clear - Hr. induction Hr as [|h e _ IH]; [now left|].
    unfold step.
    destruct (String.eqb (transcript (handle e h)) (transcript h)) eqn:Hch.
    - apply String.eqb_eq in Hch.
      destruct (handle_frame e h) as (L & _).
      rewrite Hch, L. exact IH.
    - destruct (admits (handle e h)) eqn:Ha.
      + destruct (transcriptEffect_admitted config _ Ha) as (A & B & _).
        right. congruence.
      + rewrite transcriptEffect_eq, Ha.
        unfold admits in Ha. apply andb_false_iff in Ha as [Ha | Ha].
        * left. now apply truthy_false.
        * right. apply negb_false_iff in Ha. now apply String.eqb_eq. }
  split; [exact Hd|].
  intros Hne. destruct Hd as [Hd | Hd]; [contradiction|].
  destruct (reachable_record_interpreted Hr) as [He | Hin].
  - congruence.
  - now rewrite Hd.
Qed.

(** Only a final recognition result can reach the page: every other
    event leaves the page, the gate's record and the count of
    interpretations as they were. *)
Theorem only_final_results_reach_the_page (e : Event) (h : Hook Page) :
  isFinalResult e = false ->
  page (step config h e) = page h
  /\ lastTranscriptRef (step config h e) = lastTranscriptRef h
  /\ interpretations (log (step config h e)) = interpretations (log h).
Proof.
  intros He.
  assert (Hp : publishesOnly (lastTranscriptRef h) e = true).
  { destruct e as [| isFinal text | err | | thr | | | f | thr]; try reflexivity.
    destruct isFinal; [discriminate|reflexivity]. }
  destruct (step_publishesOnly config e h eq_refl Hp) as (L & P & I).
  auto.
Qed.

End MoreSession.

Lemma recorder_at_most_one_call (hasName hasConfirm : bool)
      (command : string) (h : Hook (list Call)) :
  Js.toLowerCase command = command ->
  let h' := processVoiceCommand (recorder hasName hasConfirm) command h in
  page h' = page h
  \/ exists c : Call,
       page h' = (page h ++ [c])%list
       /\ forall v, callValue c = Some v -> v <> "" /\ Js.toLowerCase v = v.
Proof.
  intros Hl. simpl.
  rewrite processVoiceCommand_classify.
  pose proof (classify_value (currentFieldRef h) Hl) as Hv.
  destruct (classify (currentFieldRef h) command) as [t|f v|f v|]; simpl.
  - right. destruct t; eexists; (split; [reflexivity|]); discriminate.
  - destruct (Js.truthy v) eqn:T; [|now left].
    apply truthy_true in T.
    destruct f, hasName, hasConfirm; simpl;
      try (now left);
      right; eexists; (split; [reflexivity|]);
      intros w Hw; injection Hw as <-; auto.
  - destruct Hv as [Hv T]. apply truthy_true in T.
    destruct f, hasName, hasConfirm; simpl;
      try (now left);
      right; eexists; (split; [reflexivity|]);
      intros w Hw; injection Hw as <-; auto.
  - now left.
Qed.

(** One run of the transcript effect makes at most one callback call,
    and a value it hands over is never empty and never contains an
    upper-case letter: a dictated value arrives in lower case whatever
    the engine heard. *)
Theorem at_most_one_call_with_lower_case_value
        (hasName hasConfirm : bool) (h : Hook (list Call)) :
  let h' := transcriptEffect (recorder hasName hasConfirm) h in
  page h' = page h
  \/ exists c : Call,
       page h' = (page h ++ [c])%list
       /\ forall v, callValue c = Some v -> v <> "" /\ Js.toLowerCase v = v.
Proof.
  simpl. rewrite transcriptEffect_eq.
  destruct (admits h); [|now left].
  exact (recorder_at_most_one_call hasName hasConfirm
           (setLastTranscriptRef (transcript h) h)
           (toLowerCase_idempotent (transcript h))).
Qed.

(** * Properties of the pages' submissions *)

(** ** One request *)

Lemma requestInterceptor_shape (st : Api.Storage) (r : Request) :
  let (pre, r') := Api.requestInterceptor st r in
  (pre = [] \/ pre = [PrintError "Error parsing auth data:"])
  /\ method r' = method r /\ url r' = url r /\ body r' = body r.
Proof.
  unfold Api.requestInterceptor.
  destruct (Api.authData st) as [d|]; [|simpl; auto].
  destruct (Js.truthy d); [|simpl; auto].
  destruct (Api.parsed st) as [| |t]; simpl; auto.
  destruct (Js.truthy t); simpl; auto.
Qed.

Lemma sentRequests_app (l1 l2 : list Act) :
  sentRequests (l1 ++ l2) = (sentRequests l1 ++ sentRequests l2)%list.
Proof.
  induction l1 as [|a l1 IH]; [reflexivity|].
  destruct a; simpl; rewrite IH; reflexivity.
Qed.

Lemma sentRequests_responseInterceptor (A : Type) (resp : Api.Result A) :
  sentRequests (Api.responseInterceptor resp) = [].
Proof.
  destruct resp as [x|e]; [reflexivity|]. simpl.
  destruct (Api.status e) as [code|]; [|reflexivity].
  destruct (Nat.eqb code 401); reflexivity.
Qed.

(** One call of the client is one request on the wire, whatever the
    storage holds and whatever the server answers. *)
Lemma sentRequests_request (A : Type) (st : Api.Storage) (r : Request)
      (resp : Api.Result A) :
  sentRequests (Api.request st r resp) = [snd (Api.requestInterceptor st r)].
Proof.
  unfold Api.request.
  pose proof (requestInterceptor_shape st r) as H.
  destruct (Api.requestInterceptor st r) as [pre r'].
  destruct H as ([-> | ->] & _); simpl;
    now rewrite sentRequests_responseInterceptor.
Qed.

Lemma in_request (A : Type) (a : Act) (st : Api.Storage) (r : Request)
      (resp : Api.Result A) :
  In a (Api.request st r resp) ->
  a = PrintError "Error parsing auth data:"
  \/ (exists r', a = Sent r')
  \/ a = PrintError "API Error:"
  \/ a = RemoveItem "auth-storage"
  \/ a = SetLocation "/login".
Proof.
  unfold Api.request.
  pose proof (requestInterceptor_shape st r) as H.
  destruct (Api.requestInterceptor st r) as [pre r'].
  destruct H as (Hpre & _).
  rewrite !in_app_iff. intros [Hin | [Hin | Hin]].
  - destruct Hpre as [-> | ->]; simpl in Hin; intuition.
  - simpl in Hin. destruct Hin as [<- | []]. eauto.
  - destruct resp as [x|e]; simpl in Hin; [contradiction|].
    destruct Hin as [<- | Hin]; [auto|].
    destruct (Api.status e) as [code|]; [|contradiction].
    destruct (Nat.eqb code 401); simpl in Hin; intuition.
Qed.

Lemma request_no_goto (A : Type) (p : string) (st : Api.Storage) (r : Request)
      (resp : Api.Result A) :
  ~ In (GoTo p) (Api.request st r resp).
Proof.
  intros H. apply in_request in H.
  destruct H as [H | [(r' & H) | [H | [H | H]]]]; discriminate.
Qed.

Lemma request_unauthorized (A : Type) (st : Api.Storage) (r : Request) (e : Api.Error) :
  Api.status e = Some 401 ->
  In (RemoveItem "auth-storage") (Api.request st r (@Api.Rejected A e))
  /\ In (SetLocation "/login") (Api.request st r (@Api.Rejected A e)).
Proof.
  intros H. unfold Api.request.
  destruct (Api.requestInterceptor st r) as [pre r'].
  rewrite !in_app_iff. simpl. rewrite H. simpl. auto 10.
Qed.


(** ** Registration *)


(** A registration whose two passwords differ sends nothing to the
    server: it ends with the error "Passwords do not match" and the
    loading flag off. *)
Theorem register_mismatch_sends_nothing
        (st : Api.Storage) (d : RegisterPage.FormData)
        (server : RegisterSubmit.Responses) :
  RegisterPage.password d <> RegisterPage.confirmPassword d ->
  let r := RegisterSubmit.handleSubmit st d server in
  sentRequests (acts r) = []
  /\ error r = "Passwords do not match"
  /\ loading r = false.
Proof.
  intros Hne. apply String.eqb_neq in Hne.
  unfold RegisterSubmit.handleSubmit. rewrite Hne. simpl. auto.
Qed.


Lemma url_requestInterceptor (st : Api.Storage) (r : Request) :
  url (snd (Api.requestInterceptor st r)) = url r.
Proof.
  pose proof (requestInterceptor_shape st r) as H.
  destruct (Api.requestInterceptor st r) as [pre r']. simpl. apply H.
Qed.

(** The registration makes its requests one after the other, each at
    most once and each only after the previous one was accepted:
    register, then login, then the profile, whatever the storage
    holds. *)
Theorem register_requests_in_order
        (st : Api.Storage) (d : RegisterPage.FormData)
        (server : RegisterSubmit.Responses) :
  RegisterPage.password d = RegisterPage.confirmPassword d ->
  map url (sentRequests (acts (RegisterSubmit.handleSubmit st d server))) =
  match RegisterSubmit.registerResponse server with
  | Api.Rejected _ => ["/auth/register"]
  | Api.Ok _ =>
      match RegisterSubmit.loginResponse server with
      | Api.Rejected _ => ["/auth/register"; "/auth/login"]
      | Api.Ok _ => ["/auth/register"; "/auth/login"; "/auth/me"]
      end
  end.
Proof.
  intros Heq. apply String.eqb_eq in Heq.
  unfold RegisterSubmit.handleSubmit. rewrite Heq. simpl negb. cbv iota.
  destruct (RegisterSubmit.registerResponse server) as [u1|e1];
    [destruct (RegisterSubmit.loginResponse server) as [t|e2];
     [destruct (RegisterSubmit.profileResponse server) as [u3|e3]|]|];
    unfold RegisterSubmit.failed; cbn [acts];
    rewrite ?sentRequests_app, ?sentRequests_request; simpl;
    rewrite ?url_requestInterceptor; reflexivity.
Qed.

(** ** Login *)


(** When the server answers the login request with 401 (wrong
    credentials), the client forgets the stored session and sends the
    browser to /login, the page sets its error message, and the profile
    is not requested. *)
Theorem login_unauthorized_reloads
        (st : Api.Storage) (email password : string)
        (server : LoginSubmit.Responses) (e : Api.Error) :
  LoginSubmit.loginResponse server = Api.Rejected e ->
  Api.status e = Some 401 ->
  let r := LoginSubmit.handleSubmit st email password server in
  In (RemoveItem "auth-storage") (acts r)
  /\ In (SetLocation "/login") (acts r)
  /\ error r = Api.errorMessage e "Login failed. Please try again."
  /\ map url (sentRequests (acts r)) = ["/auth/login"].
Proof.
  intros Hr Hs. unfold LoginSubmit.handleSubmit. rewrite Hr.
  unfold LoginSubmit.failed. cbn [loading error acts].
  destruct (@request_unauthorized string st
              (Api.post "/auth/login"
                 [("email", JString email); ("password", JString password)])
              e Hs) as (H1 & H2).
  repeat apply conj.
  - apply in_or_app; left. apply in_or_app; right. exact H1.
  - apply in_or_app; left. apply in_or_app; right. exact H2.
  - reflexivity.
  - rewrite !sentRequests_app, sentRequests_request. simpl.
    now rewrite url_requestInterceptor.
Qed.

Lemma requestInterceptor_token (st : Api.Storage) (d t : string) (r : Request) :
  Api.authData st = Some d -> Js.truthy d = true ->
  Api.parsed st = Api.Token t -> Js.truthy t = true ->
  authorization (snd (Api.requestInterceptor st r)) = Some ("Bearer " ++ t).
Proof.
  intros Hd Td Ht Tt. unfold Api.requestInterceptor.
  now rewrite Hd, Td, Ht, Tt.
Qed.

Lemma requestInterceptor_no_storage (st : Api.Storage) (r : Request) :
  Api.authData st = None -> Api.requestInterceptor st r = ([], r).
Proof. intros Hd. unfold Api.requestInterceptor. now rewrite Hd. Qed.

(** The profile request of a login carries the token the login request
    just returned only when no token is stored: a stored token replaces
    it, as it is put on every request of the submission. *)
Theorem stored_token_overrides_fresh_token
        (st : Api.Storage) (email password access_token : string)
        (server : LoginSubmit.Responses) :
  LoginSubmit.loginResponse server = Api.Ok access_token ->
  let sent := sentRequests (acts (LoginSubmit.handleSubmit st email password server)) in
  (Api.authData st = None ->
   map authorization sent = [None; Some ("Bearer " ++ access_token)])
  /\ (forall d t : string,
        Api.authData st = Some d -> Js.truthy d = true ->
        Api.parsed st = Api.Token t -> Js.truthy t = true ->
        map authorization sent = [Some ("Bearer " ++ t); Some ("Bearer " ++ t)]).
Proof.
  intros Hr. unfold LoginSubmit.handleSubmit. rewrite Hr.
  split.
  - intros Hd.
    destruct (LoginSubmit.profileResponse server); unfold LoginSubmit.failed;
      cbn [acts]; rewrite ?sentRequests_app, ?sentRequests_request;
      rewrite !requestInterceptor_no_storage by exact Hd; reflexivity.
  - intros d t Hd Td Ht Tt.
    destruct (LoginSubmit.profileResponse server); unfold LoginSubmit.failed;
      cbn [acts]; rewrite ?sentRequests_app, ?sentRequests_request;
      simpl; rewrite !(requestInterceptor_token st _ Hd Td Ht Tt); reflexivity.
Qed.

(** * Properties of the pages' voice callbacks *)

Lemma stripWhiteSpace_idempotent (s : string) :
  Js.stripWhiteSpace (Js.stripWhiteSpace s) = Js.stripWhiteSpace s.
Proof.
  induction s as [|c s IH]; [reflexivity|]. simpl.
  destruct (Js.isWhiteSpace c) eqn:W; [exact IH|].
  simpl. now rewrite W, IH.
Qed.

Lemma stripWhiteSpace_toLowerCase (s : string) :
  Js.stripWhiteSpace (Js.toLowerCase s) = Js.toLowerCase (Js.stripWhiteSpace s).
Proof.
  induction s as [|c s IH]; [reflexivity|]. simpl.
  rewrite isWhiteSpace_lowerChar.
  destruct (Js.isWhiteSpace c); [exact IH|].
  simpl. now rewrite IH.
Qed.

(** What the voice callbacks store is normalised: an email address
    has no white space and no upper-case letter, a password and its
    confirmation have no white space, on both pages and whatever was
    dictated. *)
Theorem voice_values_are_normalised
        (v : string) (s : RegisterPage.State) (l : LoginPage.State) :
  let e := RegisterPage.email
             (RegisterPage.formData (onEmailCommand RegisterPage.config v s)) in
  let pw := RegisterPage.password
              (RegisterPage.formData (onPasswordCommand RegisterPage.config v s)) in
  let e' := LoginPage.email (onEmailCommand LoginPage.config v l) in
  let pw' := LoginPage.password (onPasswordCommand LoginPage.config v l) in
  (Js.stripWhiteSpace e = e /\ Js.toLowerCase e = e)
  /\ Js.stripWhiteSpace pw = pw
  /\ (forall cb, onConfirmPasswordCommand RegisterPage.config = Some cb ->
        let cp := RegisterPage.confirmPassword (RegisterPage.formData (cb v s)) in
        Js.stripWhiteSpace cp = cp)
  /\ (Js.stripWhiteSpace e' = e' /\ Js.toLowerCase e' = e')
  /\ Js.stripWhiteSpace pw' = pw'.
Proof.
  simpl. repeat apply conj;
    try (now rewrite stripWhiteSpace_toLowerCase, stripWhiteSpace_idempotent);
    try apply toLowerCase_idempotent;
    try apply stripWhiteSpace_idempotent.
  intros cb Hcb. injection Hcb as <-. simpl. apply stripWhiteSpace_idempotent.
Qed.

(** A password and its confirmation that were dictated with the same
    characters but different spacing are stored equal, so the
    submission is not refused for a mismatch: it sends the
    registration request. *)
Theorem spacing_does_not_break_the_password_match
        (a b : string) (s : RegisterPage.State)
        (st : Api.Storage) (server : RegisterSubmit.Responses) :
  Js.stripWhiteSpace a = Js.stripWhiteSpace b ->
  forall cb, onConfirmPasswordCommand RegisterPage.config = Some cb ->
  let d := RegisterPage.formData
             (cb b (onPasswordCommand RegisterPage.config a s)) in
  RegisterPage.password d = RegisterPage.confirmPassword d
  /\ exists rest,
       map url (sentRequests (acts (RegisterSubmit.handleSubmit st d server)))
       = "/auth/register" :: rest.
Proof.
  intros Hab cb Hcb. injection Hcb as <-. simpl.
  split; [exact Hab|].
  unfold RegisterSubmit.handleSubmit. simpl RegisterPage.password.
  simpl RegisterPage.confirmPassword.
  rewrite Hab, String.eqb_refl. simpl negb. cbv iota.
  destruct (RegisterSubmit.registerResponse server) as [u1|e1];
    [destruct (RegisterSubmit.loginResponse server) as [t|e2];
     [destruct (RegisterSubmit.profileResponse server) as [u3|e3]|]|];
    unfold RegisterSubmit.failed; cbn [acts];
    rewrite ?sentRequests_app, ?sentRequests_request; simpl;
    rewrite ?url_requestInterceptor; eauto.
Qed.

Lemma next_formData (s : RegisterPage.State) :
  RegisterPage.formData (onNextCommand RegisterPage.config s)
  = RegisterPage.formData s.
Proof.
  simpl. destruct (RegisterPage.currentField s); try reflexivity.
  destruct (RegisterPage.allFilled (RegisterPage.formData s)); reflexivity.
Qed.

Lemma next_at_confirm (s : RegisterPage.State) :
  RegisterPage.allFilled (RegisterPage.formData s) = false ->
  RegisterPage.currentField s = ConfirmPassword ->
  onNextCommand RegisterPage.config s = s.
Proof. intros Hf Hc. simpl. now rewrite Hc, Hf. Qed.

Lemma next_no_submit (s : RegisterPage.State) :
  RegisterPage.allFilled (RegisterPage.formData s) = false ->
  In HandleSubmit (RegisterPage.effects (onNextCommand RegisterPage.config s)) ->
  In HandleSubmit (RegisterPage.effects s).
Proof.
  intros Hf. simpl. rewrite Hf.
  destruct (RegisterPage.currentField s); simpl; try (intros H; exact H);
    intros H; apply in_app_or in H as [H | [H | []]]; try exact H; discriminate.
Qed.

Lemma iter_next_invariant (n : nat) (s : RegisterPage.State) :
  RegisterPage.allFilled (RegisterPage.formData s) = false ->
  RegisterPage.formData (Nat.iter n (onNextCommand RegisterPage.config) s)
  = RegisterPage.formData s
  /\ (In HandleSubmit
        (RegisterPage.effects (Nat.iter n (onNextCommand RegisterPage.config) s)) ->
      In HandleSubmit (RegisterPage.effects s)).
Proof.
  intros Hf. induction n as [|n [IHd IHe]]; [simpl; auto|].
  change (Nat.iter (S n) (onNextCommand RegisterPage.config) s)
    with (onNextCommand RegisterPage.config
            (Nat.iter n (onNextCommand RegisterPage.config) s)).
  split.
  - now rewrite next_formData.
  - intros H. apply IHe. apply next_no_submit; [|exact H]. now rewrite IHd.
Qed.

(** On the registration page "next" only walks forward: on a form that
    is not completely filled, three or more "next" commands from any
    field end at the confirmation field and stay there, and they never
    change the form data and never submit. *)
Theorem next_settles_at_confirm_password (n : nat) (s : RegisterPage.State) :
  RegisterPage.allFilled (RegisterPage.formData s) = false ->
  3 <= n ->
  let s' := Nat.iter n (onNextCommand RegisterPage.config) s in
  RegisterPage.currentField s' = ConfirmPassword
  /\ RegisterPage.formData s' = RegisterPage.formData s
  /\ (In HandleSubmit (RegisterPage.effects s') ->
      In HandleSubmit (RegisterPage.effects s)).
Proof.
  intros Hf Hn. cbv zeta.
  split; [|now apply iter_next_invariant].
  replace n with ((n - 3) + 3) by lia.
  rewrite Nat.iter_add.
  set (s3 := Nat.iter 3 (onNextCommand RegisterPage.config) s).
  assert (H3 : RegisterPage.currentField s3 = ConfirmPassword).
  { subst s3. destruct s as [d cf ef]. simpl in Hf. simpl.
    destruct cf; do 3 (cbv -[RegisterPage.allFilled]; rewrite ?Hf); reflexivity. }
  assert (Hf3 : RegisterPage.allFilled (RegisterPage.formData s3) = false).
  { subst s3. now rewrite (proj1 (iter_next_invariant 3 s Hf)). }
  induction (n - 3) as [|m IH]; [exact H3|].
  change (Nat.iter (S m) (onNextCommand RegisterPage.config) s3)
    with (onNextCommand RegisterPage.config
            (Nat.iter m (onNextCommand RegisterPage.config) s3)).
  rewrite next_at_confirm; [exact IH| |exact IH].
  now rewrite (proj1 (iter_next_invariant m s3 Hf3)).
Qed.

Lemma classify_direct_input (cur : option Field) (command v : string) (f : Field) :
  classify cur command = DirectInput f v -> cur = Some f /\ v = command.
Proof.
  unfold classify. branches; try discriminate.
  destruct cur as [g|]; [|discriminate].
  destruct (Js.truthy command); [|discriminate].
  intros H. injection H as -> ->. auto.
Qed.

(** On the registration page the page's own current field follows the
    hook's: after a field selection with a value, and after a direct
    input, both are the field that received the value and the focus
    went there last.  A keyword said alone moves only the hook's
    currentFieldRef and leaves the page as it was, so until the next
    value the two can differ. *)
Theorem register_page_follows_the_hook
        (command : string) (h : Hook RegisterPage.State) :
  let h' := processVoiceCommand RegisterPage.config command h in
  match classify (currentFieldRef h) command with
  | SelectField f v =>
      currentFieldRef h' = Some f
      /\ (if Js.truthy v
          then RegisterPage.currentField (page h') = f
               /\ RegisterPage.effects (page h')
                  = (RegisterPage.effects (page h) ++ [Focus f])%list
          else page h' = page h)
  | DirectInput f v =>
      currentFieldRef h' = Some f
      /\ RegisterPage.currentField (page h') = f
      /\ RegisterPage.effects (page h')
         = (RegisterPage.effects (page h) ++ [Focus f])%list
  | _ => True
  end.
Proof.
  simpl. rewrite processVoiceCommand_classify.
  destruct (classify (currentFieldRef h) command) as [t|f v|f v|] eqn:Hc;
    [trivial| | |trivial].
  - simpl. destruct (Js.truthy v); [destruct f|]; simpl; auto.
  - apply classify_direct_input in Hc as [Hcur ->].
    destruct f; simpl; auto.
Qed.

(** * Properties of the chat page *)

Lemma trim_empty_of_empty (s : string) :
  Js.truthy (Js.trim s) = true -> Js.truthy s = true.
Proof. destruct s; [discriminate|reflexivity]. Qed.

Lemma chatbot_guard (h : Hook ChatbotPage.State) :
  negb (Js.truthy (Js.trim (ChatbotPage.inputMessage (page h))))
  && Nat.eqb (List.length (ChatbotPage.files (page h))) 0 = true
  <-> Js.trim (ChatbotPage.inputMessage (page h)) = ""
      /\ ChatbotPage.files (page h) = [].
Proof.
  rewrite andb_true_iff, negb_true_iff, truthy_false, Nat.eqb_eq.
  split; intros [A B]; split; try exact A.
  - now destruct (ChatbotPage.files (page h)).
  - now rewrite B.
Qed.

Lemma chatbot_guard_false (h : Hook ChatbotPage.State) :
  Js.trim (ChatbotPage.inputMessage (page h)) <> ""
  \/ ChatbotPage.files (page h) <> [] ->
  negb (Js.truthy (Js.trim (ChatbotPage.inputMessage (page h))))
  && Nat.eqb (List.length (ChatbotPage.files (page h))) 0 = false.
Proof.
  intros H.
  destruct (negb _ && _) eqn:G; [|reflexivity].
  apply chatbot_guard in G as [A B]. destruct H; contradiction.
Qed.

(** handleSendMessage does nothing at all, and sends nothing, exactly
    when the input is blank (empty or only white space) and no file is
    chosen. *)
Theorem chatbot_blank_message_is_ignored
        (useVoice : bool) (before after : nat) (st : Api.Storage)
        (resp : Api.Result ChatbotPage.Data) (h : Hook ChatbotPage.State) :
  ChatbotPage.handleSendMessage useVoice before after st resp h = (h, [])
  <-> Js.trim (ChatbotPage.inputMessage (page h)) = ""
      /\ ChatbotPage.files (page h) = [].
Proof.
  rewrite <- chatbot_guard. unfold ChatbotPage.handleSendMessage.
  destruct (negb _ && _) eqn:G.
  - split; reflexivity.
  - split; [|discriminate].
    intros H. injection H as _ Hacts.
    apply (f_equal sentRequests) in Hacts.
    rewrite sentRequests_request in Hacts. discriminate.
Qed.

(** Every message that is sent makes exactly one request.  A chosen
    file is uploaded whatever was typed; otherwise the text goes to the
    running session when there is one, and to the general chat only
    when there is none. *)
Theorem chatbot_request_routing
        (useVoice : bool) (before after : nat) (st : Api.Storage)
        (resp : Api.Result ChatbotPage.Data) (h : Hook ChatbotPage.State) :
  Js.trim (ChatbotPage.inputMessage (page h)) <> ""
  \/ ChatbotPage.files (page h) <> [] ->
  let sent := sentRequests
                (snd (ChatbotPage.handleSendMessage useVoice before after st resp h)) in
  map url sent =
  [match ChatbotPage.files (page h) with
   | _ :: _ => "/chatbot/upload-csv"
   | [] => if ChatbotPage.truthyOpt (ChatbotPage.currentSessionId (page h))
           then "/chatbot/process-command"
           else "/chatbot/csv-chat"
   end].
Proof.
  intros Hsent. pose proof (chatbot_guard_false h Hsent) as G.
  unfold ChatbotPage.handleSendMessage. rewrite G.
  cbn [snd]. rewrite sentRequests_request. simpl map.
  rewrite url_requestInterceptor. f_equal.
  unfold ChatbotPage.chooseRequest.
  destruct (ChatbotPage.files (page h)) as [|file rest]; [|reflexivity].
  simpl in G. rewrite andb_true_r in G. apply negb_false_iff in G.
  apply trim_empty_of_empty in G.
  destruct (ChatbotPage.currentSessionId (page h)) as [session|]; simpl;
    [|reflexivity].
  rewrite G, andb_true_r. destruct (Js.truthy session); reflexivity.
Qed.

(** Sending a message has two halves.  At once the user's message,
    which is never empty, is appended, the input and the transcript are
    cleared and the loading flag is set, and the request leaves.  When
    the server has answered, whatever the page did in the meantime,
    exactly one bot message is appended to the conversation as it then
    is, the chosen files are cleared and the loading flag is off, and
    the input and the transcript as they then are stay as they are.
    When nothing runs in between, handleSendMessage is the one half
    after the other. *)
Theorem chatbot_send_settles
        (useVoice : bool) (before after : nat) (st : Api.Storage)
        (resp : Api.Result ChatbotPage.Data)
        (h later : Hook ChatbotPage.State) :
  Js.trim (ChatbotPage.inputMessage (page h)) <> ""
  \/ ChatbotPage.files (page h) <> [] ->
  let h1 := fst (ChatbotPage.beforeAwait useVoice before st h) in
  let h2 := fst (ChatbotPage.afterAwait (page h) after resp later) in
  (ChatbotPage.messages (page h1)
   = (ChatbotPage.messages (page h)
        ++ [ChatbotPage.userMessage before (page h)])%list
   /\ ChatbotPage.type (ChatbotPage.userMessage before (page h)) = ChatbotPage.User
   /\ ChatbotPage.content (ChatbotPage.userMessage before (page h)) <> Some ""
   /\ ChatbotPage.inputMessage (page h1) = ""
   /\ transcript h1 = ""
   /\ ChatbotPage.loading (page h1) = true
   /\ ChatbotPage.files (page h1) = ChatbotPage.files (page h)
   /\ exists r, sentRequests (snd (ChatbotPage.beforeAwait useVoice before st h))
                = [r])
  /\ (exists answer,
         ChatbotPage.messages (page h2)
         = (ChatbotPage.messages (page later) ++ [answer])%list
         /\ ChatbotPage.type answer = ChatbotPage.Bot)
  /\ ChatbotPage.files (page h2) = []
  /\ ChatbotPage.loading (page h2) = false
  /\ ChatbotPage.inputMessage (page h2) = ChatbotPage.inputMessage (page later)
  /\ transcript h2 = transcript later
  /\ sentRequests (snd (ChatbotPage.afterAwait (page h) after resp later)) = []
  /\ ChatbotPage.handleSendMessage useVoice before after st resp h
     = (fst (ChatbotPage.afterAwait (page h) after resp h1),
        (snd (ChatbotPage.beforeAwait useVoice before st h)
           ++ snd (ChatbotPage.afterAwait (page h) after resp h1))%list).
Proof.
  intros Hsent. pose proof (chatbot_guard_false h Hsent) as G. cbv zeta.
  repeat apply conj; try reflexivity.
  - destruct (Js.truthy (ChatbotPage.inputMessage (page h))) eqn:T; simpl;
      rewrite T.
    + apply truthy_true in T. congruence.
    + discriminate.
  - unfold ChatbotPage.beforeAwait. cbn [snd].
    pose proof (requestInterceptor_shape st
                  (ChatbotPage.chooseRequest useVoice (page h))) as Hs.
    destruct (Api.requestInterceptor st _) as [pre r].
    exists r. destruct Hs as ([-> | ->] & _); reflexivity.
  - exists (ChatbotPage.botMessage after (page h) resp).
    split; [reflexivity|]. destruct resp; reflexivity.
  - apply sentRequests_responseInterceptor.
  - unfold ChatbotPage.handleSendMessage. rewrite G. f_equal.
    unfold Api.request, ChatbotPage.beforeAwait, ChatbotPage.afterAwait.
    cbn [snd].
    destruct (Api.requestInterceptor st _) as [pre r].
    now rewrite <- app_assoc.
Qed.

Lemma removeAt_length (index : nat) (fs : list string) :
  List.length (ChatbotPage.removeAt index fs) <= List.length fs.
Proof.
  revert index. induction fs as [|f fs IH]; intros index; simpl; [lia|].
  destruct index as [|i]; simpl; [lia|]. specialize (IH i). lia.
Qed.

Lemma removeAt_Forall (P : string -> Prop) (index : nat) (fs : list string) :
  Forall P fs -> Forall P (ChatbotPage.removeAt index fs).
Proof.
  revert index. induction fs as [|f fs IH]; intros index H; simpl; [constructor|].
  inversion H; subst.
  destruct index as [|i]; [assumption|]. constructor; auto.
Qed.

(** The invariant of the chosen files. *)
Lemma perform_files (op : ChatbotPage.Op) (h : Hook ChatbotPage.State) :
  List.length (ChatbotPage.files (page h)) <= 1 ->
  Forall (fun f => Js.endsWith f ".csv" = true) (ChatbotPage.files (page h)) ->
  let h' := fst (ChatbotPage.perform op h) in
  List.length (ChatbotPage.files (page h')) <= 1
  /\ Forall (fun f => Js.endsWith f ".csv" = true) (ChatbotPage.files (page h')).
Proof.
  intros Hl Hc.
  assert (Hsend : forall v b a st resp,
             let h' := fst (ChatbotPage.handleSendMessage v b a st resp h) in
             List.length (ChatbotPage.files (page h')) <= 1
             /\ Forall (fun f => Js.endsWith f ".csv" = true)
                       (ChatbotPage.files (page h'))).
  { intros v b a st resp. unfold ChatbotPage.handleSendMessage.
    destruct (_ && _); simpl; auto. }
  destruct op as [e | value | selected | index | b a st resp
                  | throws b a st resp | key shiftKey b a st resp]; simpl.
  - assert (He : page (handle e h) = page h) by apply handle_frame.
    destruct (String.eqb _ _); cbn [fst].
    + now rewrite He.
    + unfold ChatbotPage.transcriptEffect.
      destruct (Js.truthy _); simpl; now rewrite He.
  - auto.
  - unfold ChatbotPage.handleFileUpload.
    destruct selected as [[|file rest]|]; simpl; auto.
    destruct (Js.endsWith file ".csv") eqn:E; simpl; auto.
  - split.
    + pose proof (removeAt_length index (ChatbotPage.files (page h))). lia.
    + now apply removeAt_Forall.
  - apply Hsend.
  - unfold ChatbotPage.handleVoiceMessage.
    destruct (isListening h) eqn:L.
    + destruct (Js.truthy (transcript h)).
      * unfold ChatbotPage.handleSendMessage.
        assert (Hp : page (stopListening h) = page h).
        { unfold stopListening. destruct (_ && _); reflexivity. }
        rewrite Hp. destruct (_ && _); simpl; rewrite ?Hp; auto.
      * cbn [fst]. unfold stopListening. destruct (_ && _); simpl; auto.
    + cbn [fst]. unfold startListening, engineStart, try_catch, completed.
      destruct (_ && _); [destruct throws|]; simpl; auto.
  - unfold ChatbotPage.handleKeyPress.
    destruct (_ && _); [|simpl; auto].
    specialize (Hsend false b a st resp).
    destruct (ChatbotPage.handleSendMessage false b a st resp h) as [h1 a1].
    exact Hsend.
Qed.

(** Whatever is done on the chat page, at most one file is chosen at
    any time and its name ends in ".csv" (in lower case): nothing else
    can reach the upload request. *)
Theorem chatbot_only_one_csv_file
        (ops : list ChatbotPage.Op) (isSupported : bool)
        (greeting : ChatbotPage.Message) :
  let h := fst (ChatbotPage.performAll ops
                  (mount isSupported (ChatbotPage.initial greeting))) in
  List.length (ChatbotPage.files (page h)) <= 1
  /\ Forall (fun f => Js.endsWith f ".csv" = true) (ChatbotPage.files (page h)).
Proof.
  cbv zeta.
  assert (H : forall ops h,
             List.length (ChatbotPage.files (page h)) <= 1 ->
             Forall (fun f => Js.endsWith f ".csv" = true)
                    (ChatbotPage.files (page h)) ->
             List.length (ChatbotPage.files
                            (page (fst (ChatbotPage.performAll ops h)))) <= 1
             /\ Forall (fun f => Js.endsWith f ".csv" = true)
                       (ChatbotPage.files
                          (page (fst (ChatbotPage.performAll ops h))))).
  { clear ops. induction ops as [|op ops IH]; intros h Hl Hc; [simpl; auto|].
    simpl. destruct (perform_files op h Hl Hc) as (Hl1 & Hc1).
    destruct (ChatbotPage.perform op h) as [h1 a1]. simpl in Hl1, Hc1.
    specialize (IH h1 Hl1 Hc1).
    destruct (ChatbotPage.performAll ops h1) as [h2 a2]. exact IH. }
  apply H; simpl; [lia | constructor].
Qed.

(** On the chat page the speech engine can only fill the input: an
    engine event or a timer makes no request and leaves the
    conversation, the chosen files and the session alone, and when it
    changes the input, the new input is the transcript just heard, as
    it was heard (trimmed, with its capitals). *)
Theorem chatbot_engine_only_fills_input (e : Event) (h : Hook ChatbotPage.State) :
  let h' := fst (ChatbotPage.perform (ChatbotPage.Engine e) h) in
  snd (ChatbotPage.perform (ChatbotPage.Engine e) h) = []
  /\ ChatbotPage.messages (page h') = ChatbotPage.messages (page h)
  /\ ChatbotPage.files (page h') = ChatbotPage.files (page h)
  /\ ChatbotPage.currentSessionId (page h') = ChatbotPage.currentSessionId (page h)
  /\ (ChatbotPage.inputMessage (page h') = ChatbotPage.inputMessage (page h)
      \/ (exists text, e = OnResult true text
                       /\ Js.trim text <> ""
                       /\ ChatbotPage.inputMessage (page h') = Js.trim text)).
Proof.
  simpl.
  assert (He : page (handle e h) = page h) by apply handle_frame.
  destruct (String.eqb (transcript (handle e h)) (transcript h)) eqn:Hch;
    cbn [fst snd].
  - rewrite He. auto 10.
  - unfold ChatbotPage.transcriptEffect.
    destruct (Js.truthy (transcript (handle e h))) eqn:T; simpl; rewrite He;
      [|auto 10].
    repeat apply conj; try reflexivity.
    right.
    destruct (handle_transcript e h) as [E | [E | (text & -> & E)]].
    + apply String.eqb_neq in Hch. contradiction.
    + rewrite E in T. discriminate.
    + exists text. rewrite E in *. apply truthy_true in T. auto.
Qed.

(** * Properties of the routes *)

(** Every route shows a screen after at most one redirect.  A visitor
    who is not authenticated only ever sees the login page, the
    registration page or the bare dashboard; an authenticated user
    never sees the login or registration page and always gets the
    layout. *)
Theorem routes_are_guarded (r : App.Route) :
  (exists s, App.show 1 false r = Some s
             /\ (s = App.LoginScreen \/ s = App.RegisterScreen
                 \/ s = App.DashboardScreen))
  /\ (exists s, App.show 1 true r = Some (App.LayoutWith s)).
Proof.
  destruct r; simpl; split; eauto 6.
Qed.

(** * Further properties of the session *)

Section MoreRecognition.

Variable Page : Type.
Variable config : VoiceCommandsConfig Page.

(** The listening flag is raised by the engine's onstart event and by
    nothing else: neither startListening nor an automatic retry sets
    it. *)
Theorem listening_only_raised_by_onstart (e : Event) (h : Hook Page) :
  isListening (step config h e) = true ->
  isListening h = true \/ e = OnStart.
Proof.
  assert (Hh : isListening (handle e h) = true ->
               isListening h = true \/ e = OnStart).
  { destruct e as [| isFinal text | err | | thr | | | f | thr]; simpl;
      unfold onstart, onresult, onerror, onend, startListening, stopListening,
        resetTranscript, setCurrentField, fire, restartRecognition, engineStart,
        try_catch, completed, setTimeout;
      repeat match goal with
             | |- context [if ?b then _ else _] => destruct b
             | |- context [match timers ?x with _ => _ end] =>
                 destruct (timers x) as [|[? []] ?]
             end; simpl; auto; discriminate. }
  unfold step. destruct (String.eqb _ _); [exact Hh|].
  destruct (transcriptEffect_frame config (handle e h)) as (_ & L & _).
  simpl in L. rewrite L. exact Hh.
Qed.

Lemma step_startListening (throws : bool) (h : Hook Page) :
  recognitionRef h = true ->
  isListening h = false ->
  let h' := step config h (StartListening throws) in
  recognitionRef h' = true
  /\ isListening h' = false
  /\ engineStarts (log h') = engineStarts (log h) + 1.
Proof.
  intros Hr Hl.
  assert (Hh : handle (StartListening throws) h
               = if throws
                 then setIsListening false
                        (emit (ConsoleError "Failed to start recognition:" None)
                           (emit EngineStart (setTranscript "" h)))
                 else emit EngineStart (setTranscript "" h)).
  { simpl. unfold startListening. rewrite Hr, Hl. simpl.
    unfold engineStart. destruct throws; reflexivity. }
  assert (Hs : step config h (StartListening throws)
               = handle (StartListening throws) h).
  { unfold step. destruct (String.eqb _ _); [reflexivity|].
    rewrite transcriptEffect_eq, admits_false_empty; [reflexivity|].
    rewrite Hh. destruct throws; reflexivity. }
  cbv zeta. rewrite Hs, Hh.
  destruct throws; simpl; rewrite ?Hr, ?Hl, !engineStarts_app;
    repeat match goal with
           | |- context [engineStarts [?x]] =>
               let n := eval compute in (engineStarts [x]) in
               change (engineStarts [x]) with n
           end; repeat split; lia.
Qed.

(** Until the engine has answered with onstart, startListening is not
    guarded against a second call: two calls in a row invoke the
    engine's start primitive twice (the page does not yet count as
    listening), whether or not the calls throw. *)
Theorem start_before_onstart_starts_again (t1 t2 : bool) (h : Hook Page) :
  recognitionRef h = true ->
  isListening h = false ->
  engineStarts (log (run config h [StartListening t1; StartListening t2]))
  = engineStarts (log h) + 2.
Proof.
  intros Hr Hl. simpl.
  destruct (step_startListening t1 h Hr Hl) as (Hr1 & Hl1 & S1).
  destruct (step_startListening t2 _ Hr1 Hl1) as (_ & _ & S2).
  cbv zeta in S1, S2. rewrite S2, S1. lia.
Qed.

(** The gate compares transcripts as they are, but interprets them in
    lower case: a transcript that differs from the one admitted last
    only in its capitals is admitted and the same command is
    interpreted once more. *)
Theorem dedup_is_case_sensitive (t t' : string) (h : Hook Page) :
  lastTranscriptRef h = t ->
  t' <> "" ->
  t' <> t ->
  Js.toLowerCase t' = Js.toLowerCase t ->
  let h' := transcriptEffect config (setTranscript t' h) in
  log h' = (log h ++ [ConsoleLog "Processing voice command:"
                        (Some (Js.toLowerCase t))])%list
  /\ interpretations (log h') = interpretations (log h) + 1
  /\ lastTranscriptRef h' = t'.
Proof.
  intros Hlast Hne Hdiff Hlow.
  assert (Ha : admits (setTranscript t' h) = true).
  { unfold admits; simpl. apply andb_true_iff; split.
    - now apply truthy_true.
    - apply negb_true_iff, String.eqb_neq. congruence. }
  destruct (transcriptEffect_admitted config _ Ha) as (A & _ & _ & _ & E & _).
  simpl in A, E. cbv zeta. rewrite E, A, Hlow.
  repeat split. rewrite interpretations_app. reflexivity.
Qed.

End MoreRecognition.

(** * The further properties at concrete inputs *)

Lemma navigation_shadows_dictation_witness :
  exists t : NavTarget,
    classify (Some Email) "email next@example.com" = Navigate t
    /\ currentFieldRef
         (processVoiceCommand (recorder true true) "email next@example.com"
            (mount true []))
       = currentFieldRef (mount true (@nil Call))
    /\ page (processVoiceCommand (recorder true true) "email next@example.com"
               (mount true []))
       = navCallback (recorder true true) t (page (mount true [])).
Proof.
  exact (@navigation_shadows_dictation (list Call) (recorder true true)
           (Some Email) "email next@example.com" (mount true []) eq_refl).
Defined.

Lemma go_to_is_not_sign_in_witness :
  classify None "go to sign in" <> Navigate SignIn
  /\ classify None "go to sign in" <> Navigate SignUp.
Proof.
  exact (@go_to_is_not_sign_in None "go to sign in" eq_refl).
Defined.

Lemma voice_never_clears_current_field_witness :
  currentFieldRef
    (run (recorder true true)
       (setCurrentFieldRef (Some Email) (mount true []))
       [OnResult true "next"; Tick false; OnError "no-speech";
        SetCurrentField (Some Name)])
  <> None.
Proof.
  apply (@voice_never_clears_current_field (list Call) (recorder true true)
           [OnResult true "next"; Tick false; OnError "no-speech";
            SetCurrentField (Some Name)]
           (setCurrentFieldRef (Some Email) (mount true []))).
  - discriminate.
  - reflexivity.
Defined.

Lemma password_containing_confirm_is_not_selected_witness :
  classify (Some Email) "password confirm123"
  = DirectInput Email "password confirm123".
Proof.
  exact (@password_containing_confirm_is_not_selected (Some Email) " confirm123"
           eq_refl eq_refl).
Defined.

Lemma published_transcript_is_admitted_witness :
  let h := step (recorder true true) (mount true []) (OnResult true " Hello ") in
  (transcript h = "" \/ transcript h = lastTranscriptRef h)
  /\ (transcript h <> "" ->
      In (ConsoleLog "Processing voice command:"
            (Some (Js.toLowerCase (transcript h)))) (log h)).
Proof.
  exact (@published_transcript_is_admitted (list Call) (recorder true true)
           true [] _
           (reachable_step (OnResult true " Hello ")
              (reachable_mount (recorder true true) true []))).
Defined.

Lemma only_final_results_reach_the_page_witness :
  let h := run (recorder true true) (mount true []) [OnResult true "next"] in
  page (step (recorder true true) h (OnResult false "email x")) = page h
  /\ lastTranscriptRef (step (recorder true true) h (OnResult false "email x"))
     = lastTranscriptRef h
  /\ interpretations (log (step (recorder true true) h (OnResult false "email x")))
     = interpretations (log h).
Proof.
  exact (@only_final_results_reach_the_page (list Call) (recorder true true)
           (OnResult false "email x")
           (run (recorder true true) (mount true []) [OnResult true "next"])
           eq_refl).
Defined.

Lemma register_mismatch_sends_nothing_witness :
  let r := RegisterSubmit.handleSubmit Sample.emptyStorage
             (Sample.form "hunter2" "hunter3") Sample.registerAccepts in
  sentRequests (acts r) = []
  /\ error r = "Passwords do not match"
  /\ loading r = false.
Proof.
  apply (@register_mismatch_sends_nothing Sample.emptyStorage
           (Sample.form "hunter2" "hunter3") Sample.registerAccepts).
  discriminate.
Defined.

Lemma register_requests_in_order_witness :
  map url (sentRequests
             (acts (RegisterSubmit.handleSubmit Sample.staleStorage
                      (Sample.form "hunter2" "hunter2") Sample.registerAccepts)))
  = ["/auth/register"; "/auth/login"; "/auth/me"].
Proof.
  exact (@register_requests_in_order Sample.staleStorage
           (Sample.form "hunter2" "hunter2") Sample.registerAccepts eq_refl).
Defined.

Lemma login_unauthorized_reloads_witness :
  let r := LoginSubmit.handleSubmit Sample.emptyStorage "jane@example.com" "wrong"
             Sample.loginRefuses in
  In (RemoveItem "auth-storage") (acts r)
  /\ In (SetLocation "/login") (acts r)
  /\ error r = "Incorrect email or password"
  /\ map url (sentRequests (acts r)) = ["/auth/login"].
Proof.
  exact (@login_unauthorized_reloads Sample.emptyStorage "jane@example.com" "wrong"
           Sample.loginRefuses Sample.unauthorized eq_refl eq_refl).
Defined.

Lemma stored_token_overrides_fresh_token_witness :
  map authorization
      (sentRequests
         (acts (LoginSubmit.handleSubmit Sample.staleStorage "jane@example.com"
                  "hunter2" Sample.loginAccepts)))
  = [Some "Bearer old"; Some "Bearer old"].
Proof.
  exact (proj2 (@stored_token_overrides_fresh_token Sample.staleStorage
                  "jane@example.com" "hunter2" "fresh" Sample.loginAccepts eq_refl)
           "{...}" "old" eq_refl eq_refl eq_refl eq_refl).
Defined.

Lemma spacing_does_not_break_the_password_match_witness :
  exists cb, onConfirmPasswordCommand RegisterPage.config = Some cb
  /\ let d := RegisterPage.formData
                (cb "hunter2"
                   (onPasswordCommand RegisterPage.config "hunter 2"
                      RegisterPage.initial)) in
     RegisterPage.password d = RegisterPage.confirmPassword d
     /\ exists rest,
          map url (sentRequests
                     (acts (RegisterSubmit.handleSubmit Sample.emptyStorage d
                              Sample.registerAccepts)))
          = "/auth/register" :: rest.
Proof.
  eexists. split; [reflexivity|].
  exact (@spacing_does_not_break_the_password_match "hunter 2" "hunter2"
           RegisterPage.initial Sample.emptyStorage Sample.registerAccepts
           eq_refl _ eq_refl).
Defined.

Lemma next_settles_at_confirm_password_witness :
  let s' := Nat.iter 5 (onNextCommand RegisterPage.config) RegisterPage.initial in
  RegisterPage.currentField s' = ConfirmPassword
  /\ RegisterPage.formData s' = RegisterPage.formData RegisterPage.initial
  /\ (In HandleSubmit (RegisterPage.effects s') ->
      In HandleSubmit (RegisterPage.effects RegisterPage.initial)).
Proof.
  apply (@next_settles_at_confirm_password 5 RegisterPage.initial).
  - reflexivity.
  - lia.
Defined.

Lemma chatbot_request_routing_witness :
  map url (sentRequests
             (snd (ChatbotPage.handleSendMessage false 10 20 Sample.emptyStorage
                     Sample.answer Sample.chatting)))
  = ["/chatbot/process-command"].
Proof.
  apply (@chatbot_request_routing false 10 20 Sample.emptyStorage
           Sample.answer Sample.chatting).
  left. discriminate.
Defined.

Lemma chatbot_send_settles_witness :
  let h1 := fst (ChatbotPage.beforeAwait false 10 Sample.emptyStorage
                   Sample.chatting) in
  let later := call (ChatbotPage.setInputMessage "and debits") h1 in
  let h2 := fst (ChatbotPage.afterAwait (page Sample.chatting) 20 Sample.answer
                   later) in
  ChatbotPage.loading (page h1) = true
  /\ ChatbotPage.loading (page h2) = false
  /\ ChatbotPage.inputMessage (page h2) = "and debits".
Proof.
  assert (Hin : Js.trim (ChatbotPage.inputMessage (page Sample.chatting)) <> ""
                \/ ChatbotPage.files (page Sample.chatting) <> []).
  { left. discriminate. }
  pose proof (@chatbot_send_settles false 10 20 Sample.emptyStorage
                Sample.answer Sample.chatting
                (call (ChatbotPage.setInputMessage "and debits")
                   (fst (ChatbotPage.beforeAwait false 10 Sample.emptyStorage
                           Sample.chatting)))
                Hin)
    as ((_ & _ & _ & _ & _ & Hl1 & _) & _ & _ & Hl2 & Hi & _).
  exact (conj Hl1 (conj Hl2 Hi)).
Defined.

Lemma listening_only_raised_by_onstart_witness :
  isListening (mount true (@nil Call)) = true \/ OnStart = OnStart.
Proof.
  exact (@listening_only_raised_by_onstart (list Call) (recorder true true)
           OnStart (mount true []) eq_refl).
Defined.

Lemma start_before_onstart_starts_again_witness :
  engineStarts
    (log (run (recorder true true) (mount true [])
            [StartListening false; StartListening true]))
  = 2.
Proof.
  exact (@start_before_onstart_starts_again (list Call) (recorder true true)
           false true (mount true []) eq_refl eq_refl).
Defined.

Lemma dedup_is_case_sensitive_witness :
  let h := run (recorder true true) (mount true []) [OnResult true "next"] in
  let h' := transcriptEffect (recorder true true) (setTranscript "Next" h) in
  interpretations (log h') = 2 /\ page h' = [NextCall; NextCall].
Proof.
  pose proof (@dedup_is_case_sensitive (list Call) (recorder true true)
                "next" "Next"
                (run (recorder true true) (mount true []) [OnResult true "next"])
                eq_refl ltac:(discriminate) ltac:(discriminate) eq_refl)
    as (_ & Hi & _).
  exact (conj Hi eq_refl).
Defined.
